(** * Telemetry lifecycle of the dice service and of the collector example

    A shallow embedding of [setupOTelSDK] (src/otel.go), of [run] and
    [main] (src/main.go, the service that calls [setupOTelSDK]), of
    [initConn] and [initTracerProvider] (src/main.go, the OTLP exporter
    variant) and of the collector example (src/unnamed/part_001), with the
    properties of the specification and further properties of the code
    stated over it.

    The Go code is stateful: [setupOTelSDK] declares a slice
    [shutdownFuncs] that two closures ([shutdown] and [handleErr]) capture
    by reference, and it mutates the process-wide OpenTelemetry defaults.
    The embedding threads an explicit [World] through a small state monad.
    The captured slice lives in a heap cell of the world, so the closure
    returned to the caller and the one used on the failure path alias the
    same registry, as they do in Go.

    The telemetry SDK, the HTTP server and the scheduler are external: the
    outcome of each SDK call is a parameter ([SDK], [Otlp.Env],
    [Collector.Env]), and the outcome of the [select] statement of [run] is
    an oracle ([SelectOutcome]).  The collector example has no shared
    registry; its [main] is embedded as a function from the outcomes of the
    library calls to the way the process ends and the trace of its calls,
    with the stack of deferred calls made explicit. *)

From Stdlib Require Import String List Bool Arith Lia DecimalString.
Import ListNotations.
Set Warnings "-register-all".

(** ** Go error values *)

(** A non-nil Go [error].  [errorString] stands for any error that does not
    unwrap to a list (errors.New, fmt.Errorf, the SDK's own errors);
    [joinError] is the value built by errors.Join. *)
Inductive error : Type :=
| errorString (s : string)
| joinError (errs : list error).

(** Induction over [error] that reaches the members of a [joinError]. *)
Section ErrorInd.

Variable P : error -> Prop.
Hypothesis P_leaf : forall s, P (errorString s).
Hypothesis P_join : forall errs, Forall P errs -> P (joinError errs).

Fixpoint error_ind' (e : error) : P e :=
  match e with
  | errorString s => P_leaf s
  | joinError errs =>
      P_join errs
        ((fix all (l : list error) : Forall P l :=
            match l with
            | [] => Forall_nil P
            | x :: l' => Forall_cons x (error_ind' x) (all l')
            end) errs)
  end.

End ErrorInd.

(** A Go interface value of type [error]: [None] is nil. *)
Definition goerror : Type := option error.

Definition nonNil (errs : list goerror) : list error :=
  flat_map (fun o => match o with Some e => [e] | None => [] end) errs.

(** errors.Join: nil arguments are discarded; the result is nil when every
    argument is nil, and otherwise one [joinError] holding the non-nil
    arguments in order (no flattening). *)
Definition errors_Join (errs : list goerror) : goerror :=
  match nonNil errs with
  | [] => None
  | es => Some (joinError es)
  end.

Fixpoint error_eqb (a b : error) {struct a} : bool :=
  match a, b with
  | errorString x, errorString y => String.eqb x y
  | joinError xs, joinError ys =>
      (fix all2 (xs ys : list error) {struct xs} : bool :=
         match xs, ys with
         | [], [] => true
         | x :: xs', y :: ys' => error_eqb x y && all2 xs' ys'
         | _, _ => false
         end) xs ys
  | _, _ => false
  end.

(** errors.Is on a non-nil error: the error is the target, or it unwraps to
    a list one of whose members matches (depth-first, as errors.Is walks
    [Unwrap() []error]). *)
Fixpoint error_Is (e target : error) {struct e} : bool :=
  error_eqb e target ||
  match e with
  | errorString _ => false
  | joinError errs => existsb (fun c => error_Is c target) errs
  end.

Definition errors_Is (err : goerror) (target : error) : bool :=
  match err with
  | None => false
  | Some e => error_Is e target
  end.

(** ** Contexts (package context) *)

(** The contexts of package context that matter here: [Background] never
    expires; [NotifyContext] (signal.NotifyContext) is cancelled by a
    signal and inherits its parent's deadline; [WithDeadline] is the only
    kind that carries a deadline of its own. *)
Inductive Context : Type :=
| Background
| NotifyContext (parent : Context)
| WithDeadline (parent : Context) (d : nat).


(** ** Providers, propagators, events *)

Inductive Kind : Type := Tracer | Meter | Logger.

Definition Kind_eqb (a b : Kind) : bool :=
  match a, b with
  | Tracer, Tracer | Meter, Meter | Logger, Logger => true
  | _, _ => false
  end.

Inductive Propagator : Type :=
| TraceContext
| Baggage
| CompositeTextMapPropagator (ps : list Propagator).

(** An element of [shutdownFuncs]: the method value [p.Shutdown] of the
    provider [p] of the given kind ([setupOTelSDK] builds at most one
    provider of each kind). *)
Inductive Callback : Type :=
| ProviderShutdown (k : Kind).

(** What the program does, in order.  [EvAppend] records the statement
    [shutdownFuncs = append(shutdownFuncs, p.Shutdown)]; every other
    event is a call into a library. *)
Inductive Event : Type :=
| EvNewPropagator
| EvSetTextMapPropagator (p : Propagator)
| EvNew (k : Kind)
| EvAppend (k : Kind)
| EvSetProvider (k : Kind)
| EvShutdown (k : Kind) (ctx : Context) (ret : goerror)
| EvNotifyContext
| EvStop
| EvGoListenAndServe
| EvRecvSrvErr (e : goerror)
| EvCtxDone
| EvSrvShutdown (ctx : Context) (ret : goerror).

(** ** The world *)

Record World : Type := mkWorld {
  trace : list Event;                    (* history, oldest first *)
  textMapPropagator : option Propagator; (* otel.SetTextMapPropagator *)
  globalProvider : Kind -> bool;         (* otel.Set*Provider / global.SetLoggerProvider *)
  heap : nat -> list Callback;           (* cells holding captured slices *)
  next : nat                             (* first unused cell *)
}.

(** The behaviour of the external libraries. *)
Record SDK : Type := mkSDK {
  (* the error returned by the constructor of a provider (nil on success) *)
  newProviderErr : Kind -> goerror;
  (* the error returned by p.Shutdown(ctx), which may depend on everything
     that happened before the call *)
  providerShutdown : Kind -> Context -> list Event -> goerror;
  (* the error returned by srv.Shutdown(ctx) *)
  srvShutdown : Context -> list Event -> goerror
}.

(** ** State monad *)

Definition M (A : Type) : Type := World -> A * World.

Definition ret {A : Type} (a : A) : M A := fun w => (a, w).

Definition bind {A B : Type} (m : M A) (f : A -> M B) : M B :=
  fun w => let r := m w in f (fst r) (snd r).

Declare Scope go_scope.
Delimit Scope go_scope with go.
Notation "x <- c1 ;; c2" := (bind c1 (fun x => c2))
  (at level 61, c1 at next level, right associativity) : go_scope.
Notation "c1 ;; c2" := (bind c1 (fun _ => c2))
  (at level 61, right associativity) : go_scope.
Local Open Scope go_scope.

Definition emit (e : Event) : M unit :=
  fun w => (tt, mkWorld (trace w ++ [e]) (textMapPropagator w)
                        (globalProvider w) (heap w) (next w)).

Definition history : M (list Event) := fun w => (trace w, w).

(** [var s []func(context.Context) error]: a fresh cell holding nil. *)
Definition newSlice : M nat :=
  fun w => (next w,
            mkWorld (trace w) (textMapPropagator w) (globalProvider w)
                    (fun r => if Nat.eqb r (next w) then [] else heap w r)
                    (S (next w))).

Definition readSlice (ref : nat) : M (list Callback) :=
  fun w => (heap w ref, w).

Definition writeSlice (ref : nat) (fns : list Callback) : M unit :=
  fun w => (tt,
            mkWorld (trace w) (textMapPropagator w) (globalProvider w)
                    (fun r => if Nat.eqb r ref then fns else heap w r)
                    (next w)).

Definition events_since (w w' : World) : list Event :=
  skipn (length (trace w)) (trace w').

(** ** src/otel.go *)

Section Program.

Variable sdk : SDK.

(** otel.SetTextMapPropagator(prop) *)
Definition SetTextMapPropagator (p : Propagator) : M unit :=
  emit (EvSetTextMapPropagator p) ;;
  fun w => (tt, mkWorld (trace w) (Some p) (globalProvider w) (heap w) (next w)).

(** otel.SetTracerProvider, otel.SetMeterProvider, global.SetLoggerProvider *)
Definition SetProvider (k : Kind) : M unit :=
  emit (EvSetProvider k) ;;
  fun w => (tt, mkWorld (trace w) (textMapPropagator w)
                        (fun k' => if Kind_eqb k' k then true else globalProvider w k')
                        (heap w) (next w)).

Definition SetTracerProvider : M unit := SetProvider Tracer.
Definition SetMeterProvider : M unit := SetProvider Meter.
Definition SetLoggerProvider : M unit := SetProvider Logger.

Definition newPropagator : M Propagator :=
  emit EvNewPropagator ;;
  ret (CompositeTextMapPropagator [TraceContext; Baggage]).

(** The three constructors return [(provider, err)]; the provider is
    identified by its kind, so only [err] is returned. *)
Definition newProvider (k : Kind) : M goerror :=
  emit (EvNew k) ;;
  ret (newProviderErr sdk k).

Definition newTracerProvider : M goerror := newProvider Tracer.
Definition newMeterProvider : M goerror := newProvider Meter.
Definition newLoggerProvider : M goerror := newProvider Logger.

(** Calling an element [fn] of the registry: [fn(ctx)]. *)
Definition call (fn : Callback) (ctx : Context) : M goerror :=
  match fn with
  | ProviderShutdown k =>
      h <- history ;;
      let r := providerShutdown sdk k ctx h in
      emit (EvShutdown k ctx r) ;;
      ret r
  end.

(** The body of [for _, fn := range shutdownFuncs], with the local [err]
    as accumulator. *)
Fixpoint shutdown_range (fns : list Callback) (ctx : Context) (err : goerror)
  : M goerror :=
  match fns with
  | [] => ret err
  | fn :: rest =>
      r <- call fn ctx ;;
      shutdown_range rest ctx (errors_Join [err; r])
  end.

(** The closure [shutdown]; [ref] is the captured [shutdownFuncs]. *)
Definition shutdown (ref : nat) (ctx : Context) : M goerror :=
  fns <- readSlice ref ;;
  err <- shutdown_range fns ctx None ;;
  writeSlice ref [] ;;
  ret err.

(** The closure [handleErr]; it assigns the named result [err], which is
    returned here. *)
Definition handleErr (ref : nat) (ctx : Context) (inErr : goerror) : M goerror :=
  r <- shutdown ref ctx ;;
  ret (errors_Join [inErr; r]).

(** [shutdownFuncs = append(shutdownFuncs, p.Shutdown)] *)
Definition append (ref : nat) (k : Kind) : M unit :=
  fns <- readSlice ref ;;
  writeSlice ref (fns ++ [ProviderShutdown k]) ;;
  emit (EvAppend k).

(** [setupOTelSDK] returns the named results [(shutdown, err)]. *)
Definition setupOTelSDK (ctx : Context)
  : M ((Context -> M goerror) * goerror) :=
  shutdownFuncs <- newSlice ;;
  let shutdown := shutdown shutdownFuncs in
  let handleErr := handleErr shutdownFuncs ctx in
  prop <- newPropagator ;;
  SetTextMapPropagator prop ;;
  err <- newTracerProvider ;;
  match err with
  | Some _ => err <- handleErr err ;; ret (shutdown, err)
  | None =>
      append shutdownFuncs Tracer ;;
      SetTracerProvider ;;
      err <- newMeterProvider ;;
      match err with
      | Some _ => err <- handleErr err ;; ret (shutdown, err)
      | None =>
          append shutdownFuncs Meter ;;
          SetMeterProvider ;;
          err <- newLoggerProvider ;;
          match err with
          | Some _ => err <- handleErr err ;; ret (shutdown, err)
          | None =>
              append shutdownFuncs Logger ;;
              SetLoggerProvider ;;
              ret (shutdown, err)
          end
      end
  end.

(** ** src/main.go *)

(** Which case of the [select] statement of [run] fires: the receive from
    [srvErr] (with the value received) or [ctx.Done()]. *)
Inductive SelectOutcome : Type :=
| SrvErrFirst (e : goerror)
| CtxDoneFirst.

Definition stop : M unit := emit EvStop.

(** [srv.Shutdown(ctx)] *)
Definition srv_Shutdown (ctx : Context) : M goerror :=
  h <- history ;;
  let r := srvShutdown sdk ctx h in
  emit (EvSrvShutdown ctx r) ;;
  ret r.

(** [run]; the deferred calls run last, newest first. *)
Definition run (sel : SelectOutcome) : M goerror :=
  emit EvNotifyContext ;;
  let ctx := NotifyContext Background in
  r <- setupOTelSDK ctx ;;
  let otelShutdown := fst r in
  let err := snd r in
  match err with
  | Some _ =>
      stop ;;                                   (* defer stop() *)
      ret err
  | None =>
      emit EvGoListenAndServe ;;
      err <- match sel with
             | SrvErrFirst e =>
                 emit (EvRecvSrvErr e) ;;
                 ret e
             | CtxDoneFirst =>
                 emit EvCtxDone ;;
                 stop ;;
                 srv_Shutdown Background
             end ;;
      e <- otelShutdown Background ;;           (* defer func() { ... }() *)
      let err := errors_Join [err; e] in
      stop ;;                                   (* defer stop() *)
      ret err
  end.

End Program.

(** How the process ends: [main] returns (exit status 0), or log.Fatalln
    prints the error and calls os.Exit(1). *)
Inductive Exit : Type :=
| Returned
| Fatalln (err : error).


(** [main]: [if err := run(); err != nil { log.Fatalln(err) }] *)
Definition main (sdk : SDK) (sel : SelectOutcome) : M Exit :=
  err <- run sdk sel ;;
  match err with
  | Some e => ret (Fatalln e)
  | None => ret Returned
  end.

(** ** Errors wrapped by fmt.Errorf *)

(** The errors of the OTLP variants: an error of a library, or the value
    built by fmt.Errorf with the verb %w ([msg] is the formatted text,
    [err] the wrapped error). *)
Inductive werror : Type :=
| libError (msg : string)
| wrapError (msg : string) (err : werror).

(** [err.Error()] *)
Definition Error (e : werror) : string :=
  match e with
  | libError msg => msg
  | wrapError msg _ => msg
  end.

(** errors.Unwrap *)
Definition Unwrap (e : werror) : option werror :=
  match e with
  | libError _ => None
  | wrapError _ err => Some err
  end.

(** fmt.Errorf(prefix + "%w", err) *)
Definition fmt_Errorf (prefix : string) (err : werror) : werror :=
  wrapError (String.append prefix (Error err)) err.

Fixpoint werror_eqb (a b : werror) : bool :=
  match a, b with
  | libError x, libError y => String.eqb x y
  | wrapError x a', wrapError y b' => String.eqb x y && werror_eqb a' b'
  | _, _ => false
  end.

(** errors.Is along the chain of wrapped errors. *)
Fixpoint werror_Is (e target : werror) : bool :=
  werror_eqb e target ||
  match e with
  | libError _ => false
  | wrapError _ err => werror_Is err target
  end.

(** ** src/main.go: [initConn] and [initTracerProvider] *)

Module Otlp.

(** The connection built by grpc.NewClient: its target and whether it uses
    insecure transport credentials. *)
Record ClientConn : Type := mkClientConn {
  target : string;
  insecureCredentials : bool
}.

(** The errors returned by the libraries (nil on success). *)
Record Env : Type := mkEnv {
  grpc_NewClient : string -> option werror;
  otlptracegrpc_New : Context -> ClientConn -> option werror
}.

Definition initConn (env : Env) : option ClientConn * option werror :=
  match grpc_NewClient env "localhost:4317" with
  | Some err =>
      (None,
       Some (fmt_Errorf "failed to create gRPC connection to collector: " err))
  | None => (Some (mkClientConn "localhost:4317" true), None)
  end.

(** [initTracerProvider(ctx, res, conn)]; the resource [res] only
    configures the provider and is left out.  [EvNew Tracer] records the
    call of otlptracegrpc.New.  The function returned is the provider's
    [Shutdown]; [None] is Go's nil function. *)
Definition initTracerProvider (env : Env) (ctx : Context) (conn : ClientConn)
  : M (option Callback * option werror) :=
  emit (EvNew Tracer) ;;
  match otlptracegrpc_New env ctx conn with
  | Some err =>
      ret (None, Some (fmt_Errorf "failed to create trace exporter: " err))
  | None =>
      SetTracerProvider ;;
      SetTextMapPropagator TraceContext ;;
      ret (Some (ProviderShutdown Tracer), None)
  end.

End Otlp.

(** ** src/unnamed/part_001: the collector example *)

Module Collector.

(** The contexts of this program: the signal context of [main] and the
    context returned by [tracer.Start], which carries the span started. *)
Inductive Ctx : Type :=
| Background
| NotifyContext (parent : Ctx)
| WithSpan (parent : Ctx) (name : string).

(** What the program does, in order; each event is a call into a
    library. *)
Inductive Ev : Type :=
| EvPrintf (msg : string)                      (* log.Printf *)
| EvNotifyContext                              (* signal.NotifyContext *)
| EvCancel                                     (* cancel() *)
| EvResourceNew (ctx : Ctx)                    (* resource.New *)
| EvNewExporter (k : Kind) (ctx : Ctx)         (* otlp{trace,metric,log}http.New *)
| EvSetProvider (k : Kind)                     (* otel.Set{Tracer,Meter}Provider *)
| EvSetTextMapPropagator (p : Propagator)      (* otel.SetTextMapPropagator *)
| EvLoggerError (msg : string)                 (* logger.Error *)
| EvLoggerInfo (msg : string)                  (* logger.Info *)
| EvInt64Counter (name : string)               (* meter.Int64Counter *)
| EvTracerStart (ctx : Ctx) (name : string)    (* tracer.Start *)
| EvSpanEnd (name : string)                    (* span.End *)
| EvAdd (ctx : Ctx) (incr : nat)               (* runCount.Add *)
| EvTimeAfter (seconds : nat)                  (* <-time.After *)
| EvShutdown (k : Kind) (ctx : Ctx) (ret : option werror)  (* p.Shutdown(ctx) *)
| EvFatal (msg : string).                      (* log.Fatal *)

(** How the process ends: [main] returns, log.Fatal calls os.Exit(1)
    without running the deferred calls, or the goroutine panics (the
    deferred calls run, then the process crashes); a panic carries the
    values passed to it, oldest first. *)
Inductive Exit : Type :=
| Returned
| OsExit (code : nat)
| Panicked (values : list string).

(** The errors returned by the libraries (nil on success). *)
Record Env : Type := mkEnv {
  resource_New : option werror;
  exporter_New : Kind -> option werror;
  Int64Counter : option werror;
  provider_Shutdown : Kind -> Ctx -> option werror
}.

(** The three init functions return their result with the events of the
    calls they made.  A function result is the provider's [Shutdown]
    method, [None] being Go's nil function. *)
Definition initTracerProvider (env : Env) (ctx : Ctx)
  : (option Callback * option werror) * list Ev :=
  match exporter_New env Tracer with
  | Some err =>
      ((None, Some (fmt_Errorf "failed to create trace exporter: " err)),
       [EvNewExporter Tracer ctx])
  | None =>
      ((Some (ProviderShutdown Tracer), None),
       [EvNewExporter Tracer ctx; EvSetProvider Tracer;
        EvSetTextMapPropagator TraceContext])
  end.

Definition initMeterProvider (env : Env) (ctx : Ctx)
  : (option Callback * option werror) * list Ev :=
  match exporter_New env Meter with
  | Some err =>
      ((None, Some (fmt_Errorf "failed to create metrics exporter: " err)),
       [EvNewExporter Meter ctx])
  | None =>
      ((Some (ProviderShutdown Meter), None),
       [EvNewExporter Meter ctx; EvSetProvider Meter])
  end.

(** The logger built by otelslog.NewLogger over the logger provider. *)
Record SlogLogger : Type := mkSlogLogger { loggerName : string }.

(** [initLoggerProvider] returns [(logger, err)]; the logger provider it
    builds is not installed as a default, and the exporter error is
    returned as it is. *)
Definition initLoggerProvider (env : Env) (ctx : Ctx)
  : (option SlogLogger * option werror) * list Ev :=
  match exporter_New env Logger with
  | Some err => ((None, Some err), [EvNewExporter Logger ctx])
  | None => ((Some (mkSlogLogger "test-service"), None),
             [EvNewExporter Logger ctx])
  end.

(** The calls deferred by [main]. *)
Inductive Deferred : Type :=
| DeferCancel                                        (* defer cancel() *)
| DeferShutdown (what : string) (fn : option Callback) (* defer func() { ... fn(ctx) ... }() *)
| DeferSpanEnd (name : string).                      (* defer span.End() *)

(** The value of the run-time panic raised by calling a nil function. *)
Definition nilDereference : string :=
  "runtime error: invalid memory address or nil pointer dereference".

(** Running one deferred call; [ctx] is the value of the variable [ctx] of
    [main] at that time, which the closures capture by reference.  The
    result is the events of the call and the panic it raised, if any. *)
Definition runDeferred (env : Env) (ctx : Ctx) (d : Deferred)
  : list Ev * list string :=
  match d with
  | DeferCancel => ([EvCancel], [])
  | DeferSpanEnd name => ([EvSpanEnd name], [])
  | DeferShutdown what None => ([], [nilDereference])
  | DeferShutdown what (Some (ProviderShutdown k)) =>
      match provider_Shutdown env k ctx with
      | Some err =>
          ([EvShutdown k ctx (Some err);
            EvLoggerError
              (String.append "failed to shutdown "
                 (String.append what (String.append ": " (Error err))))],
           [])
      | None => ([EvShutdown k ctx None], [])
      end
  end.

(** The deferred calls run newest first; a panic in one of them does not
    keep the others from running. *)
Fixpoint runAllDeferred (env : Env) (ctx : Ctx) (stack : list Deferred)
  : list Ev * list string :=
  match stack with
  | [] => ([], [])
  | d :: rest =>
      let r := runDeferred env ctx d in
      let rs := runAllDeferred env ctx rest in
      (fst r ++ fst rs, snd r ++ snd rs)
  end.

(** fmt.Sprintf("%d", n) *)
Definition decimal (n : nat) : string :=
  NilEmpty.string_of_uint (Nat.to_uint n).

Definition newline : string := String (Ascii.ascii_of_nat 10) EmptyString.

(** The body of the [for] loop of [main], for the value [i] of the loop
    variable. *)
Definition iteration (ctx : Ctx) (i : nat) : list Ev :=
  [EvTracerStart ctx (String.append "Sample-" (decimal i));
   EvAdd ctx 1;
   EvLoggerInfo
     (String.append "Doing really hard work ("
        (String.append (decimal (i + 1)) (String.append " / 10)" newline)));
   EvTimeAfter 1;
   EvSpanEnd (String.append "Sample-" (decimal i))].

(** [for i := 0; i < 10; i++ { ... }], from the value [i] of the loop
    variable on; [fuel] bounds the number of iterations left. *)
Fixpoint loop (fuel : nat) (ctx : Ctx) (i : nat) : list Ev :=
  match fuel with
  | 0 => []
  | S fuel' =>
      if Nat.ltb i 10
      then iteration ctx i ++ loop fuel' ctx (S i)
      else []
  end.

Definition logInitError (what : string) (err : option werror) : list Ev :=
  match err with
  | Some e =>
      [EvLoggerError
         (String.append "failed to initialize "
            (String.append what (String.append ": " (Error e))))]
  | None => []
  end.

(** [main]: how the process ends, and its trace. *)
Definition main (env : Env) : Exit * list Ev :=
  let ctx := NotifyContext Background in
  let t := [EvPrintf "Waiting for connection..."; EvNotifyContext;
            EvResourceNew ctx] in
  match resource_New env with
  | Some err => (OsExit 1, t ++ [EvFatal (Error err)])
  | None =>
      let rl := initLoggerProvider env ctx in
      let t := t ++ snd rl in
      match snd (fst rl) with
      | Some err =>
          let d := runAllDeferred env ctx [DeferCancel] in
          (Panicked
             (String.append "error setting up OTel Log SDK - " (Error err)
              :: snd d),
           t ++ fst d)
      | None =>
          let rt := initTracerProvider env ctx in
          let shutdownTracerProvider := fst (fst rt) in
          let t := t ++ snd rt ++ logInitError "TracerProvider" (snd (fst rt)) in
          let rm := initMeterProvider env ctx in
          let shutdownMeterProvider := fst (fst rm) in
          let t := t ++ snd rm ++ logInitError "MeterProvider" (snd (fst rm)) in
          let t := t ++ [EvInt64Counter "run"] in
          match Int64Counter env with
          | Some err => (OsExit 1, t ++ [EvFatal (Error err)])
          | None =>
              let t := t ++ [EvTracerStart ctx "CollectorExporter-Example"] in
              let ctx := WithSpan ctx "CollectorExporter-Example" in
              let t := t ++ loop 10 ctx 0 ++ [EvLoggerInfo "Done!"] in
              let d := runAllDeferred env ctx
                         [DeferSpanEnd "CollectorExporter-Example";
                          DeferShutdown "MeterProvider" shutdownMeterProvider;
                          DeferShutdown "TracerProvider" shutdownTracerProvider;
                          DeferCancel] in
              (match snd d with
               | [] => Returned
               | values => Panicked values
               end,
               t ++ fst d)
          end
      end
  end.

(** The providers whose [Shutdown] was called, in call order. *)
Definition shutdownCalls (evs : list Ev) : list Kind :=
  flat_map (fun ev => match ev with EvShutdown k _ _ => [k] | _ => [] end) evs.

(** The contexts handed to those calls. *)
Definition shutdownContexts (evs : list Ev) : list Ctx :=
  flat_map (fun ev => match ev with EvShutdown _ c _ => [c] | _ => [] end) evs.

(** The providers installed as process-wide defaults, in order. *)
Definition installed (evs : list Ev) : list Kind :=
  flat_map (fun ev => match ev with EvSetProvider k => [k] | _ => [] end) evs.

(** The increments of the counter, in order. *)
Definition increments (evs : list Ev) : list nat :=
  flat_map (fun ev => match ev with EvAdd _ n => [n] | _ => [] end) evs.

(** The names of the spans started, in order. *)
Definition spansStarted (evs : list Ev) : list string :=
  flat_map (fun ev => match ev with EvTracerStart _ n => [n] | _ => [] end) evs.

(** The names of the spans ended, in order. *)
Definition spansEnded (evs : list Ev) : list string :=
  flat_map (fun ev => match ev with EvSpanEnd n => [n] | _ => [] end) evs.

Definition isCancel (ev : Ev) : bool :=
  match ev with EvCancel => true | _ => false end.

End Collector.

(** ** Reading a trace *)

Definition callbackKind (fn : Callback) : Kind :=
  match fn with ProviderShutdown k => k end.

(** The providers whose [Shutdown] was called, in call order. *)
Definition shutdownCalls (evs : list Event) : list Kind :=
  flat_map (fun ev => match ev with EvShutdown k _ _ => [k] | _ => [] end) evs.

(** What those calls returned, in call order. *)
Definition shutdownReturns (evs : list Event) : list goerror :=
  flat_map (fun ev => match ev with EvShutdown _ _ r => [r] | _ => [] end) evs.

(** How many times the teardown of the provider of kind [k] was called. *)
Definition shutdownCount (k : Kind) (evs : list Event) : nat :=
  List.length (filter (Kind_eqb k) (shutdownCalls evs)).

(** The providers whose teardown was appended to the registry, in order. *)
Definition appended (evs : list Event) : list Kind :=
  flat_map (fun ev => match ev with EvAppend k => [k] | _ => [] end) evs.

Definition isShutdown (ev : Event) : bool :=
  match ev with EvShutdown _ _ _ => true | _ => false end.

(** The trace without the teardown calls. *)
Definition setupSteps (evs : list Event) : list Event :=
  filter (fun ev => negb (isShutdown ev)) evs.

Definition propagatorInstalls (evs : list Event) : list Propagator :=
  flat_map (fun ev => match ev with EvSetTextMapPropagator p => [p] | _ => [] end) evs.

Definition srvShutdowns (evs : list Event) : list (Context * goerror) :=
  flat_map (fun ev => match ev with EvSrvShutdown c r => [(c, r)] | _ => [] end) evs.

Definition srvErrReceives (evs : list Event) : list goerror :=
  flat_map (fun ev => match ev with EvRecvSrvErr e => [e] | _ => [] end) evs.

(** [err = errors.Join(err, r)] *)
Definition join2 (err r : goerror) : goerror := errors_Join [err; r].

(** The order in which [setupOTelSDK] constructs the providers. *)
Definition constructionOrder : list Kind := [Tracer; Meter; Logger].

Fixpoint before (k : Kind) (ks : list Kind) : list Kind :=
  match ks with
  | [] => []
  | k' :: rest => if Kind_eqb k' k then [] else k' :: before k rest
  end.

(** The providers constructed before the provider of kind [k]. *)
Definition earlier (k : Kind) : list Kind := before k constructionOrder.

(** The steps of a complete setup. *)
Definition setupOrder : list Event :=
  [ EvNewPropagator;
    EvSetTextMapPropagator (CompositeTextMapPropagator [TraceContext; Baggage]);
    EvNew Tracer; EvAppend Tracer; EvSetProvider Tracer;
    EvNew Meter; EvAppend Meter; EvSetProvider Meter;
    EvNew Logger; EvAppend Logger; EvSetProvider Logger ].

(** The contexts handed to the teardown calls, in call order. *)
Definition shutdownContexts (evs : list Event) : list Context :=
  flat_map (fun ev => match ev with EvShutdown _ c _ => [c] | _ => [] end) evs.

Definition isStop (ev : Event) : bool :=
  match ev with EvStop => true | _ => false end.

(** How many times [stop] was called. *)
Definition stops (evs : list Event) : nat := List.length (filter isStop evs).

Definition isServerStart (ev : Event) : bool :=
  match ev with EvGoListenAndServe => true | _ => false end.

(** How many times the goroutine running [srv.ListenAndServe] was started. *)
Definition serverStarts (evs : list Event) : nat :=
  List.length (filter isServerStart evs).

(** The providers installed as process-wide defaults, in order. *)
Definition installed (evs : list Event) : list Kind :=
  flat_map (fun ev => match ev with EvSetProvider k => [k] | _ => [] end) evs.

(** The providers whose constructor was called, in order. *)
Definition constructed (evs : list Event) : list Kind :=
  flat_map (fun ev => match ev with EvNew k => [k] | _ => [] end) evs.

(** The errors that [run] assigns to its named result before the deferred
    calls run: the value received from [srvErr], or the result of
    [srv.Shutdown]. *)
Definition serverErrors (evs : list Event) : list goerror :=
  flat_map (fun ev => match ev with
                      | EvRecvSrvErr e => [e]
                      | EvSrvShutdown _ r => [r]
                      | _ => []
                      end) evs.

Definition isNil (e : goerror) : bool :=
  match e with None => true | Some _ => false end.


(** The events of the calls [fn(ctx)] made by one pass over a registry
    holding the teardowns of the providers [ks], started with history
    [h]. *)
Fixpoint teardownEvents (sdk : SDK) (ks : list Kind) (ctx : Context)
         (h : list Event) : list Event :=
  match ks with
  | [] => []
  | k :: rest =>
      let ev := EvShutdown k ctx (providerShutdown sdk k ctx h) in
      ev :: teardownEvents sdk rest ctx (h ++ [ev])
  end.

(** ** Concrete worlds and SDK behaviours *)

Definition w0 : World := mkWorld [] None (fun _ => false) (fun _ => []) 0.

Definition errTracerDown : error := errorString "tracer: shutdown failed".
Definition errMeterDown : error := errorString "meter: shutdown failed".
Definition errMeterNew : error := errorString "meter: exporter unavailable".
Definition errListen : error := errorString "listen tcp :8080: address in use".

(** Every constructor succeeds; the tracer and the meter fail to shut
    down. *)
Definition sdk_ok : SDK :=
  mkSDK (fun _ => None)
        (fun k _ _ => match k with
                      | Tracer => Some errTracerDown
                      | Meter => Some errMeterDown
                      | Logger => None
                      end)
        (fun _ _ => None).

(** The meter constructor fails; the tracer fails to shut down. *)
Definition sdk_meter_fails : SDK :=
  mkSDK (fun k => match k with Meter => Some errMeterNew | _ => None end)
        (fun k _ _ => match k with Tracer => Some errTracerDown | _ => None end)
        (fun _ _ => None).

(** Environments of the collector example: the trace exporter cannot be
    created; everything succeeds but the meter provider fails to shut
    down; the counter cannot be created. *)
Definition collector_tracer_fails : Collector.Env :=
  Collector.mkEnv None
                  (fun k => match k with
                            | Tracer => Some (libError "connection refused")
                            | _ => None
                            end)
                  None
                  (fun _ _ => None).

Definition collector_ok : Collector.Env :=
  Collector.mkEnv None
                  (fun _ => None)
                  None
                  (fun k _ => match k with
                              | Meter => Some (libError "flush failed")
                              | _ => None
                              end).

Definition collector_counter_fails : Collector.Env :=
  Collector.mkEnv None
                  (fun _ => None)
                  (Some (libError "invalid instrument name"))
                  (fun _ _ => None).

(** * Properties *)

(** ** Errors *)

Lemma error_eqb_refl (e : error) : error_eqb e e = true.
Proof.
  induction e as [s | errs IH] using error_ind'.
  - apply String.eqb_refl.
  - simpl. induction IH as [| x l Hx _ IHl]; [reflexivity |].
    rewrite Hx. exact IHl.
Qed.

Lemma error_Is_refl (e : error) : error_Is e e = true.
Proof. destruct e; cbn [error_Is]; rewrite error_eqb_refl; reflexivity. Qed.

Lemma error_Is_member (errs : list error) (c t : error) :
  In c errs -> error_Is c t = true -> error_Is (joinError errs) t = true.
Proof.
  intros Hin Hc. cbn [error_Is]. apply orb_true_iff. right.
  apply existsb_exists. exists c. split; assumption.
Qed.

Lemma nonNil_In (errs : list goerror) (e : error) :
  In (Some e) errs -> In e (nonNil errs).
Proof.
  intros H. unfold nonNil. apply in_flat_map.
  exists (Some e). split; [assumption | left; reflexivity].
Qed.

(** A joined error reveals whatever any of its arguments reveals. *)
Lemma errors_Is_Join (errs : list goerror) (o : goerror) (t : error) :
  In o errs -> errors_Is o t = true -> errors_Is (errors_Join errs) t = true.
Proof.
  intros Hin Ho. destruct o as [c |]; [| discriminate].
  apply nonNil_In in Hin. unfold errors_Join.
  destruct (nonNil errs) as [| x l] eqn:E; [destruct Hin |].
  change (error_Is (joinError (x :: l)) t = true).
  apply error_Is_member with (c := c); assumption.
Qed.

Lemma errors_Join_nonnil (e : error) (rest : list goerror) :
  errors_Join (Some e :: rest) <> None.
Proof. unfold errors_Join. simpl. discriminate. Qed.

Lemma fold_join2_Is_acc (rets : list goerror) :
  forall (acc : goerror) (t : error),
    errors_Is acc t = true ->
    errors_Is (fold_left join2 rets acc) t = true.
Proof.
  induction rets as [| r rets IH]; intros acc t H; simpl; [assumption |].
  apply IH. unfold join2.
  apply errors_Is_Join with (o := acc); [left; reflexivity | assumption].
Qed.

Lemma fold_join2_Is_In (rets : list goerror) :
  forall (acc : goerror) (e : error),
    In (Some e) rets ->
    errors_Is (fold_left join2 rets acc) e = true.
Proof.
  induction rets as [| r rets IH]; intros acc e Hin; simpl; [destruct Hin |].
  destruct Hin as [-> | Hin].
  - apply fold_join2_Is_acc. unfold join2.
    apply errors_Is_Join with (o := Some e); [right; left; reflexivity |].
    simpl. apply error_Is_refl.
  - apply IH. assumption.
Qed.

(** ** Traces *)

Lemma skipn_length_app {A : Type} (l l' : list A) :
  skipn (List.length l) (l ++ l') = l'.
Proof. induction l as [| x l IH]; simpl; [reflexivity | exact IH]. Qed.

Lemma events_since_app (w w' : World) (evs : list Event) :
  trace w' = trace w ++ evs -> events_since w w' = evs.
Proof. intros H. unfold events_since. rewrite H. apply skipn_length_app. Qed.

Lemma events_since_same (w w' : World) :
  trace w' = trace w -> events_since w w' = [].
Proof.
  intros H. apply events_since_app. rewrite app_nil_r. exact H.
Qed.

Lemma shutdownCalls_app (a b : list Event) :
  shutdownCalls (a ++ b) = shutdownCalls a ++ shutdownCalls b.
Proof. apply flat_map_app. Qed.

Lemma shutdownReturns_app (a b : list Event) :
  shutdownReturns (a ++ b) = shutdownReturns a ++ shutdownReturns b.
Proof. apply flat_map_app. Qed.

(** ** Running the monad step by step *)

Lemma bind_run {A B : Type} (m : M A) (f : A -> M B) (w w' : World) (a : A) :
  m w = (a, w') -> bind m f w = f a w'.
Proof. intros H. unfold bind. rewrite H. reflexivity. Qed.

Lemma bind_assoc {A B C : Type} (m : M A) (f : A -> M B) (g : B -> M C)
      (w : World) :
  bind (bind m f) g w = bind m (fun x => bind (f x) g) w.
Proof. reflexivity. Qed.

Lemma bind_split {A B : Type} (m : M A) (f : A -> M B) (w : World) :
  bind m f w = f (fst (m w)) (snd (m w)).
Proof. reflexivity. Qed.

Lemma ret_run {A : Type} (a : A) (w : World) : ret a w = (a, w).
Proof. reflexivity. Qed.

Lemma emit_run (e : Event) (w : World) :
  emit e w
  = (tt, mkWorld (trace w ++ [e]) (textMapPropagator w) (globalProvider w)
                 (heap w) (next w)).
Proof. reflexivity. Qed.

Lemma history_run (w : World) : history w = (trace w, w).
Proof. reflexivity. Qed.

Lemma newSlice_run (w : World) :
  newSlice w
  = (next w,
     mkWorld (trace w) (textMapPropagator w) (globalProvider w)
             (fun r => if Nat.eqb r (next w) then [] else heap w r)
             (S (next w))).
Proof. reflexivity. Qed.

Lemma readSlice_run (ref : nat) (w : World) : readSlice ref w = (heap w ref, w).
Proof. reflexivity. Qed.

Lemma writeSlice_run (ref : nat) (fns : list Callback) (w : World) :
  writeSlice ref fns w
  = (tt, mkWorld (trace w) (textMapPropagator w) (globalProvider w)
                 (fun r => if Nat.eqb r ref then fns else heap w r)
                 (next w)).
Proof. reflexivity. Qed.

Lemma SetTextMapPropagator_run (p : Propagator) (w : World) :
  SetTextMapPropagator p w
  = (tt, mkWorld (trace w ++ [EvSetTextMapPropagator p]) (Some p)
                 (globalProvider w) (heap w) (next w)).
Proof. reflexivity. Qed.

Lemma SetProvider_run (k : Kind) (w : World) :
  SetProvider k w
  = (tt, mkWorld (trace w ++ [EvSetProvider k]) (textMapPropagator w)
                 (fun k' => if Kind_eqb k' k then true else globalProvider w k')
                 (heap w) (next w)).
Proof. reflexivity. Qed.

Lemma newPropagator_run (w : World) :
  newPropagator w
  = (CompositeTextMapPropagator [TraceContext; Baggage],
     mkWorld (trace w ++ [EvNewPropagator]) (textMapPropagator w)
             (globalProvider w) (heap w) (next w)).
Proof. reflexivity. Qed.

Lemma newProvider_run (sdk : SDK) (k : Kind) (w : World) :
  newProvider sdk k w
  = (newProviderErr sdk k,
     mkWorld (trace w ++ [EvNew k]) (textMapPropagator w)
             (globalProvider w) (heap w) (next w)).
Proof. reflexivity. Qed.

Lemma call_run (sdk : SDK) (k : Kind) (ctx : Context) (w : World) :
  call sdk (ProviderShutdown k) ctx w
  = (providerShutdown sdk k ctx (trace w),
     mkWorld (trace w ++ [EvShutdown k ctx (providerShutdown sdk k ctx (trace w))])
             (textMapPropagator w) (globalProvider w) (heap w) (next w)).
Proof. reflexivity. Qed.

Lemma append_run (ref : nat) (k : Kind) (w : World) :
  append ref k w
  = (tt, mkWorld (trace w ++ [EvAppend k]) (textMapPropagator w)
                 (globalProvider w)
                 (fun r => if Nat.eqb r ref
                           then heap w ref ++ [ProviderShutdown k]
                           else heap w r)
                 (next w)).
Proof. reflexivity. Qed.

Lemma srv_Shutdown_run (sdk : SDK) (ctx : Context) (w : World) :
  srv_Shutdown sdk ctx w
  = (srvShutdown sdk ctx (trace w),
     mkWorld (trace w ++ [EvSrvShutdown ctx (srvShutdown sdk ctx (trace w))])
             (textMapPropagator w) (globalProvider w) (heap w) (next w)).
Proof. reflexivity. Qed.

(** Symbolic execution.  [prim] gives the result of one call; [step] runs
    the first call of a sequence on the current world; [tidy] reads the
    fields of the world built so far, and the registry cell wherever it is
    looked up at its own address. *)
Ltac prim :=
  lazymatch goal with
  | |- ret _ _ = _ => apply ret_run
  | |- emit _ _ = _ => apply emit_run
  | |- history _ = _ => apply history_run
  | |- newSlice _ = _ => apply newSlice_run
  | |- readSlice _ _ = _ => apply readSlice_run
  | |- writeSlice _ _ _ = _ => apply writeSlice_run
  | |- SetTextMapPropagator _ _ = _ => apply SetTextMapPropagator_run
  | |- SetProvider _ _ = _ => apply SetProvider_run
  | |- newPropagator _ = _ => apply newPropagator_run
  | |- newProvider _ _ _ = _ => apply newProvider_run
  | |- call _ _ _ _ = _ => apply call_run
  | |- append _ _ _ = _ => apply append_run
  | |- srv_Shutdown _ _ _ = _ => apply srv_Shutdown_run
  end.

Ltac fields :=
  cbn [trace textMapPropagator globalProvider heap next fst snd app
       shutdown_range].

Ltac outcomes :=
  repeat match goal with
         | H : newProviderErr _ _ = _ |- _ => rewrite H
         end.

Ltac tidy :=
  fields; outcomes; repeat (rewrite Nat.eqb_refl; fields); fields.

Ltac step :=
  first [ rewrite bind_assoc | erewrite bind_run by prim ]; tidy.

Ltac expose :=
  unfold handleErr, shutdown, stop, SetTracerProvider, SetMeterProvider,
    SetLoggerProvider, newTracerProvider, newMeterProvider,
    newLoggerProvider.

Ltac finish := rewrite ?ret_run; tidy; rewrite <- ?app_assoc; fields.

Ltac exec := expose; repeat step; finish.

(** ** The closure [shutdown] *)

Section Lifecycle.

Variable sdk : SDK.

(** The loop over the registry only appends teardown calls to the trace:
    one call per callback, in the order of the slice, each result joined
    onto the accumulator; nothing else in the world changes. *)
Lemma shutdown_range_spec (ctx : Context) (fns : list Callback) :
  forall (acc : goerror) (w : World),
    let r := shutdown_range sdk fns ctx acc w in
    exists evs,
      trace (snd r) = trace w ++ evs /\
      shutdownCalls evs = map callbackKind fns /\
      setupSteps evs = [] /\
      fst r = fold_left join2 (shutdownReturns evs) acc /\
      textMapPropagator (snd r) = textMapPropagator w /\
      globalProvider (snd r) = globalProvider w /\
      heap (snd r) = heap w /\
      next (snd r) = next w.
Proof.
  induction fns as [| fn rest IH]; intros acc w.
  - exists []. cbn. rewrite app_nil_r. repeat split; reflexivity.
  - destruct fn as [k]. cbn [shutdown_range].
    rewrite (bind_run _ _ _ _ _ (call_run sdk k ctx w)).
    set (ev := EvShutdown k ctx (providerShutdown sdk k ctx (trace w))).
    set (w1 := mkWorld (trace w ++ [ev]) (textMapPropagator w)
                       (globalProvider w) (heap w) (next w)).
    destruct (IH (errors_Join [acc; providerShutdown sdk k ctx (trace w)]) w1)
      as (evs & Htr & Hcalls & Hsteps & Hres & Hp & Hg & Hh & Hn).
    exists (ev :: evs). repeat split.
    + rewrite Htr. subst w1. cbn. rewrite <- app_assoc. reflexivity.
    + cbn. rewrite <- Hcalls. reflexivity.
    + cbn. exact Hsteps.
    + rewrite Hres. reflexivity.
    + rewrite Hp. reflexivity.
    + rewrite Hg. reflexivity.
    + rewrite Hh. reflexivity.
    + rewrite Hn. reflexivity.
Qed.

(** [shutdown] is the loop over the content of the registry, followed by
    the assignment of nil to the registry. *)
Lemma shutdown_run (ref : nat) (ctx : Context) (w : World) :
  shutdown sdk ref ctx w
  = (fst (shutdown_range sdk (heap w ref) ctx None w),
     snd (writeSlice ref [] (snd (shutdown_range sdk (heap w ref) ctx None w)))).
Proof. reflexivity. Qed.

(** One invocation of [shutdown]: the callbacks of the registry are called
    in slice order and the registry is nil afterwards. *)
Lemma shutdown_spec (ref : nat) (ctx : Context) (w : World) :
  let r := shutdown sdk ref ctx w in
  exists evs,
    trace (snd r) = trace w ++ evs /\
    shutdownCalls evs = map callbackKind (heap w ref) /\
    setupSteps evs = [] /\
    fst r = fold_left join2 (shutdownReturns evs) None /\
    heap (snd r) ref = [] /\
    textMapPropagator (snd r) = textMapPropagator w /\
    globalProvider (snd r) = globalProvider w /\
    next (snd r) = next w.
Proof.
  destruct (shutdown_range_spec ctx (heap w ref) None w)
    as (evs & Htr & Hcalls & Hsteps & Hres & Hp & Hg & Hh & Hn).
  exists evs. rewrite shutdown_run. cbn [fst snd writeSlice heap trace
    textMapPropagator globalProvider next]. rewrite Nat.eqb_refl.
  repeat split; assumption.
Qed.

(** With a nil registry [shutdown] calls nothing and returns nil. *)
Lemma shutdown_nil (ref : nat) (ctx : Context) (w : World) :
  heap w ref = [] ->
  fst (shutdown sdk ref ctx w) = None /\
  trace (snd (shutdown sdk ref ctx w)) = trace w /\
  heap (snd (shutdown sdk ref ctx w)) ref = [].
Proof.
  intros H. rewrite shutdown_run, H. cbn. rewrite Nat.eqb_refl.
  repeat split; reflexivity.
Qed.

(** ** [setupOTelSDK], case by case *)

(** Whatever happens, the function value returned is the closure over the
    slice that this call declared. *)
Lemma setup_closure (ctx : Context) (w : World) :
  fst (fst (setupOTelSDK sdk ctx w)) = shutdown sdk (next w).
Proof.
  unfold setupOTelSDK. expose. do 4 step.
  destruct (newProviderErr sdk Tracer); fields; [reflexivity |].
  do 3 step.
  destruct (newProviderErr sdk Meter); fields; [reflexivity |].
  do 3 step.
  destruct (newProviderErr sdk Logger); fields; reflexivity.
Qed.

Lemma setup_fails_Tracer (ctx : Context) (w : World) (e : error) :
  newProviderErr sdk Tracer = Some e ->
  let r := setupOTelSDK sdk ctx w in
  snd (fst r) = errors_Join [Some e; None] /\
  trace (snd r) = trace w ++ firstn 3 setupOrder /\
  heap (snd r) (next w) = [] /\
  textMapPropagator (snd r)
  = Some (CompositeTextMapPropagator [TraceContext; Baggage]).
Proof.
  intros HT r. subst r. unfold setupOTelSDK. exec.
  repeat split; reflexivity.
Qed.

Lemma setup_fails_Meter (ctx : Context) (w : World) (e : error) :
  newProviderErr sdk Tracer = None ->
  newProviderErr sdk Meter = Some e ->
  let r := setupOTelSDK sdk ctx w in
  let h := trace w ++ firstn 6 setupOrder in
  let r1 := providerShutdown sdk Tracer ctx h in
  snd (fst r) = errors_Join [Some e; join2 None r1] /\
  trace (snd r) = h ++ [EvShutdown Tracer ctx r1] /\
  heap (snd r) (next w) = [] /\
  textMapPropagator (snd r)
  = Some (CompositeTextMapPropagator [TraceContext; Baggage]).
Proof.
  intros HT HM r h r1. subst r1 h r. unfold setupOTelSDK. exec.
  repeat split; reflexivity.
Qed.

Lemma setup_fails_Logger (ctx : Context) (w : World) (e : error) :
  newProviderErr sdk Tracer = None ->
  newProviderErr sdk Meter = None ->
  newProviderErr sdk Logger = Some e ->
  let r := setupOTelSDK sdk ctx w in
  let h := trace w ++ firstn 9 setupOrder in
  let r1 := providerShutdown sdk Tracer ctx h in
  let r2 := providerShutdown sdk Meter ctx (h ++ [EvShutdown Tracer ctx r1]) in
  snd (fst r) = errors_Join [Some e; join2 (join2 None r1) r2] /\
  trace (snd r) = h ++ [EvShutdown Tracer ctx r1; EvShutdown Meter ctx r2] /\
  heap (snd r) (next w) = [] /\
  textMapPropagator (snd r)
  = Some (CompositeTextMapPropagator [TraceContext; Baggage]).
Proof.
  intros HT HM HL r h r1 r2. subst r2 r1 h r. unfold setupOTelSDK. exec.
  repeat split; reflexivity.
Qed.

Lemma setup_succeeds (ctx : Context) (w : World) :
  newProviderErr sdk Tracer = None ->
  newProviderErr sdk Meter = None ->
  newProviderErr sdk Logger = None ->
  let r := setupOTelSDK sdk ctx w in
  snd (fst r) = None /\
  trace (snd r) = trace w ++ setupOrder /\
  heap (snd r) (next w) = map ProviderShutdown constructionOrder /\
  textMapPropagator (snd r)
  = Some (CompositeTextMapPropagator [TraceContext; Baggage]) /\
  (forall k, globalProvider (snd r) k = true).
Proof.
  intros HT HM HL r. subst r. unfold setupOTelSDK. exec.
  repeat split; try reflexivity.
  intros k; destruct k; reflexivity.
Qed.

End Lifecycle.

(** A failing constructor, whichever it is, makes [setupOTelSDK] return a
    non-nil error, leaves the registry nil and leaves the propagator
    installed. *)
Lemma setup_failure_state (sdk : SDK) (ctx : Context) (w : World)
      (k : Kind) (e : error) :
  newProviderErr sdk k = Some e ->
  let r := setupOTelSDK sdk ctx w in
  snd (fst r) <> None /\
  heap (snd r) (next w) = [] /\
  textMapPropagator (snd r)
  = Some (CompositeTextMapPropagator [TraceContext; Baggage]).
Proof.
  intros Hk r. subst r.
  destruct (newProviderErr sdk Tracer) as [eT |] eqn:HT.
  { destruct (setup_fails_Tracer sdk ctx w eT HT) as (Herr & _ & Hh & Hp).
    rewrite Herr. repeat split; try assumption. apply errors_Join_nonnil. }
  destruct (newProviderErr sdk Meter) as [eM |] eqn:HM.
  { destruct (setup_fails_Meter sdk ctx w eM HT HM) as (Herr & _ & Hh & Hp).
    rewrite Herr. repeat split; try assumption. apply errors_Join_nonnil. }
  destruct (newProviderErr sdk Logger) as [eL |] eqn:HL.
  { destruct (setup_fails_Logger sdk ctx w eL HT HM HL) as (Herr & _ & Hh & Hp).
    rewrite Herr. repeat split; try assumption. apply errors_Join_nonnil. }
  destruct k; congruence.
Qed.

(** [setupOTelSDK] returns a nil error only when the three constructors
    succeeded. *)
Lemma setup_nil_inv (sdk : SDK) (ctx : Context) (w : World) :
  snd (fst (setupOTelSDK sdk ctx w)) = None ->
  forall k, newProviderErr sdk k = None.
Proof.
  intros Hnil k. destruct (newProviderErr sdk k) as [e |] eqn:Hk; [| reflexivity].
  destruct (setup_failure_state sdk ctx w k e Hk) as (Hne & _).
  contradiction.
Qed.

(** The trace and the error of a setup whose first failing constructor is
    that of the provider of kind [k]. *)
Lemma setup_first_failure (sdk : SDK) (ctx : Context) (w : World)
      (k : Kind) (e : error) :
  (forall k', In k' (earlier k) -> newProviderErr sdk k' = None) ->
  newProviderErr sdk k = Some e ->
  let r := setupOTelSDK sdk ctx w in
  let evs := events_since w (snd r) in
  setupSteps evs = firstn (3 * S (List.length (earlier k))) setupOrder /\
  shutdownCalls evs = earlier k /\
  snd (fst r)
  = errors_Join [Some e; fold_left join2 (shutdownReturns evs) None].
Proof.
  intros Hearlier Hk r evs. subst evs r.
  destruct k; cbn in Hearlier.
  - destruct (setup_fails_Tracer sdk ctx w e Hk) as (Herr & Htr & _).
    rewrite (events_since_app _ _ _ Htr), Herr.
    repeat split; reflexivity.
  - assert (HT : newProviderErr sdk Tracer = None) by (apply Hearlier; auto).
    destruct (setup_fails_Meter sdk ctx w e HT Hk) as (Herr & Htr & _).
    rewrite <- app_assoc in Htr.
    rewrite (events_since_app _ _ _ Htr), Herr.
    repeat split; reflexivity.
  - assert (HT : newProviderErr sdk Tracer = None) by (apply Hearlier; auto).
    assert (HM : newProviderErr sdk Meter = None) by (apply Hearlier; auto).
    destruct (setup_fails_Logger sdk ctx w e HT HM Hk) as (Herr & Htr & _).
    rewrite <- app_assoc in Htr.
    rewrite (events_since_app _ _ _ Htr), Herr.
    repeat split; reflexivity.
Qed.

(** ** Failure during setup *)

(** C1: if the constructor of the provider at position [k] of the
    construction sequence fails (those before it having succeeded), then
    before [setupOTelSDK] returns the teardown of each provider constructed
    earlier has been called exactly once, and the error returned is
    errors.Join of the construction error with the joined results of those
    teardown calls, so that it reveals the construction error and every
    teardown error. *)
Theorem setup_failure_tears_down_earlier_providers
        (sdk : SDK) (ctx : Context) (w : World) (k : Kind) (e : error) :
  (forall k', In k' (earlier k) -> newProviderErr sdk k' = None) ->
  newProviderErr sdk k = Some e ->
  let r := setupOTelSDK sdk ctx w in
  let evs := events_since w (snd r) in
  shutdownCalls evs = earlier k /\
  (forall k', In k' (earlier k) -> shutdownCount k' evs = 1) /\
  snd (fst r)
  = errors_Join [Some e; fold_left join2 (shutdownReturns evs) None] /\
  errors_Is (snd (fst r)) e = true /\
  (forall e', In (Some e') (shutdownReturns evs) ->
              errors_Is (snd (fst r)) e' = true).
Proof.
  intros Hearlier Hk r evs.
  destruct (setup_first_failure sdk ctx w k e Hearlier Hk)
    as (_ & Hcalls & Herr).
  subst evs r.
  split; [exact Hcalls |]. split; [| split; [exact Herr | split]].
  - intros k' Hin. unfold shutdownCount. rewrite Hcalls.
    destruct k; cbn in Hin; destruct k'; cbn; intuition congruence.
  - rewrite Herr.
    apply errors_Is_Join with (o := Some e); [left; reflexivity |].
    apply error_Is_refl.
  - intros e' Hin. rewrite Herr.
    eapply errors_Is_Join; [right; left; reflexivity |].
    apply fold_join2_Is_In. exact Hin.
Qed.

Lemma setup_failure_tears_down_earlier_providers_witness :
  let r := setupOTelSDK sdk_meter_fails Background w0 in
  shutdownCalls (events_since w0 (snd r)) = [Tracer] /\
  snd (fst r) = Some (joinError [errMeterNew; joinError [errTracerDown]]) /\
  errors_Is (snd (fst r)) errMeterNew = true /\
  errors_Is (snd (fst r)) errTracerDown = true.
Proof.
  assert (Hearlier : forall k', In k' (earlier Meter) ->
                                newProviderErr sdk_meter_fails k' = None).
  { intros k' Hin. destruct Hin as [<- | []]. reflexivity. }
  assert (Hk : newProviderErr sdk_meter_fails Meter = Some errMeterNew)
    by reflexivity.
  destruct (setup_failure_tears_down_earlier_providers
              sdk_meter_fails Background w0 Meter errMeterNew Hearlier Hk)
    as (Hcalls & _ & Herr & Hnew & Hdown).
  intros r.
  exact (conj Hcalls (conj Herr (conj Hnew (Hdown _ (or_introl eq_refl))))).
Defined.

(** C5: if the meter provider constructor fails (the tracer provider having
    been constructed), the tracer provider's teardown is called exactly
    once, the error returned by [setupOTelSDK] is non-nil and reveals the
    meter construction error, and the logger provider constructor is never
    called. *)
Theorem meter_failure_tears_down_tracer_only
        (sdk : SDK) (ctx : Context) (w : World) (e : error) :
  newProviderErr sdk Tracer = None ->
  newProviderErr sdk Meter = Some e ->
  let r := setupOTelSDK sdk ctx w in
  let evs := events_since w (snd r) in
  shutdownCalls evs = [Tracer] /\
  shutdownCount Tracer evs = 1 /\
  snd (fst r) <> None /\
  errors_Is (snd (fst r)) e = true /\
  ~ In (EvNew Logger) evs.
Proof.
  intros HT HM r evs. subst evs r.
  destruct (setup_fails_Meter sdk ctx w e HT HM) as (Herr & Htr & _).
  rewrite <- app_assoc in Htr.
  rewrite (events_since_app _ _ _ Htr), Herr.
  split; [reflexivity |]. split; [reflexivity |].
  split; [apply errors_Join_nonnil |]. split.
  - apply errors_Is_Join with (o := Some e); [left; reflexivity |].
    apply error_Is_refl.
  - cbn. intros H.
    repeat (destruct H as [H | H]; [discriminate H |]). exact H.
Qed.

Lemma meter_failure_tears_down_tracer_only_witness :
  let r := setupOTelSDK sdk_meter_fails Background w0 in
  shutdownCalls (events_since w0 (snd r)) = [Tracer] /\
  errors_Is (snd (fst r)) errMeterNew = true /\
  ~ In (EvNew Logger) (events_since w0 (snd r)).
Proof.
  intros r.
  pose proof (meter_failure_tears_down_tracer_only
                sdk_meter_fails Background w0 errMeterNew
                eq_refl eq_refl) as H.
  exact (conj (proj1 H)
              (conj (proj1 (proj2 (proj2 (proj2 H))))
                    (proj2 (proj2 (proj2 (proj2 H)))))).
Defined.



(** C10: when a provider constructor fails, the composite propagator
    installed at the start of [setupOTelSDK] is still the process-wide
    default when the function returns: it is installed once and nothing
    installs another; the registry only ever received the teardowns of the
    providers constructed so far, and exactly those are called by the
    failure-path cleanup. *)
Theorem propagator_survives_failed_setup
        (sdk : SDK) (ctx : Context) (w : World) (k : Kind) (e : error) :
  (forall k', In k' (earlier k) -> newProviderErr sdk k' = None) ->
  newProviderErr sdk k = Some e ->
  let r := setupOTelSDK sdk ctx w in
  let evs := events_since w (snd r) in
  snd (fst r) <> None /\
  textMapPropagator (snd r)
  = Some (CompositeTextMapPropagator [TraceContext; Baggage]) /\
  propagatorInstalls evs = [CompositeTextMapPropagator [TraceContext; Baggage]] /\
  appended evs = earlier k /\
  shutdownCalls evs = earlier k.
Proof.
  intros Hearlier Hk r evs. subst evs r.
  destruct (setup_failure_state sdk ctx w k e Hk) as (Hne & _ & Hp).
  split; [exact Hne |]. split; [exact Hp |].
  destruct k; cbn in Hearlier.
  - destruct (setup_fails_Tracer sdk ctx w e Hk) as (_ & Htr & _).
    rewrite (events_since_app _ _ _ Htr). repeat split; reflexivity.
  - assert (HT : newProviderErr sdk Tracer = None) by (apply Hearlier; auto).
    destruct (setup_fails_Meter sdk ctx w e HT Hk) as (_ & Htr & _).
    rewrite <- app_assoc in Htr.
    rewrite (events_since_app _ _ _ Htr). repeat split; reflexivity.
  - assert (HT : newProviderErr sdk Tracer = None) by (apply Hearlier; auto).
    assert (HM : newProviderErr sdk Meter = None) by (apply Hearlier; auto).
    destruct (setup_fails_Logger sdk ctx w e HT HM Hk) as (_ & Htr & _).
    rewrite <- app_assoc in Htr.
    rewrite (events_since_app _ _ _ Htr). repeat split; reflexivity.
Qed.

Lemma propagator_survives_failed_setup_witness :
  let r := setupOTelSDK sdk_meter_fails Background w0 in
  textMapPropagator (snd r)
  = Some (CompositeTextMapPropagator [TraceContext; Baggage]) /\
  appended (events_since w0 (snd r)) = [Tracer] /\
  shutdownCalls (events_since w0 (snd r)) = [Tracer].
Proof.
  intros r.
  assert (Hearlier : forall k', In k' (earlier Meter) ->
                                newProviderErr sdk_meter_fails k' = None).
  { intros k' Hin. destruct Hin as [<- | []]. reflexivity. }
  pose proof (propagator_survives_failed_setup
                sdk_meter_fails Background w0 Meter errMeterNew
                Hearlier eq_refl) as H.
  exact (conj (proj1 (proj2 H))
              (conj (proj1 (proj2 (proj2 (proj2 H))))
                    (proj2 (proj2 (proj2 (proj2 H)))))).
Defined.

(** ** Order of construction *)


(** ** The shutdown function of a successful setup *)

(** After a successful setup the registry holds the three teardowns in
    construction order and the function returned is the closure over it. *)
Lemma setup_success_state (sdk : SDK) (ctx : Context) (w : World) :
  snd (fst (setupOTelSDK sdk ctx w)) = None ->
  fst (fst (setupOTelSDK sdk ctx w)) = shutdown sdk (next w) /\
  heap (snd (setupOTelSDK sdk ctx w)) (next w)
  = map ProviderShutdown constructionOrder /\
  events_since w (snd (setupOTelSDK sdk ctx w)) = setupOrder.
Proof.
  intros Hnil.
  pose proof (setup_nil_inv sdk ctx w Hnil) as Hall.
  destruct (setup_succeeds sdk ctx w (Hall Tracer) (Hall Meter) (Hall Logger))
    as (_ & Htr & Hh & _).
  split; [apply setup_closure |]. split; [exact Hh |].
  apply events_since_app. exact Htr.
Qed.

Lemma shutdownReturns_In (evs : list Event) (k : Kind) (ctx : Context)
      (e : error) :
  In (EvShutdown k ctx (Some e)) evs -> In (Some e) (shutdownReturns evs).
Proof.
  intros H. unfold shutdownReturns. apply in_flat_map.
  exists (EvShutdown k ctx (Some e)). split; [exact H | left; reflexivity].
Qed.

(** C2: the shutdown function returned by a successful [setupOTelSDK] is
    idempotent: its first invocation calls the three teardowns, and a
    second invocation calls nothing (the trace does not grow) and returns
    nil, whatever the teardowns returned the first time. *)
Theorem shutdown_twice_is_noop
        (sdk : SDK) (ctx ctx1 ctx2 : Context) (w : World) :
  let r0 := setupOTelSDK sdk ctx w in
  snd (fst r0) = None ->
  let r1 := fst (fst r0) ctx1 (snd r0) in
  let r2 := fst (fst r0) ctx2 (snd r1) in
  shutdownCalls (events_since (snd r0) (snd r1)) = constructionOrder /\
  fst r2 = None /\
  events_since (snd r1) (snd r2) = [].
Proof.
  intros r0 Hnil r1 r2. subst r2 r1 r0.
  destruct (setup_success_state sdk ctx w Hnil) as (Hclo & Hh & _).
  rewrite Hclo.
  destruct (shutdown_spec sdk (next w) ctx1 (snd (setupOTelSDK sdk ctx w)))
    as (evs & Htr & Hcalls & _ & _ & Hnilreg & _).
  split.
  - rewrite (events_since_app _ _ _ Htr), Hcalls, Hh. reflexivity.
  - destruct (shutdown_nil sdk (next w) ctx2 _ Hnilreg) as (Hret & Htr2 & _).
    split; [exact Hret |]. apply events_since_same. exact Htr2.
Qed.

Lemma shutdown_twice_is_noop_witness :
  let r0 := setupOTelSDK sdk_ok Background w0 in
  let r1 := fst (fst r0) Background (snd r0) in
  let r2 := fst (fst r0) Background (snd r1) in
  fst r1 <> None /\
  fst r2 = None /\
  events_since (snd r1) (snd r2) = [].
Proof.
  intros r0 r1 r2.
  pose proof (shutdown_twice_is_noop sdk_ok Background Background Background
                                     w0 eq_refl) as H.
  split; [vm_compute; discriminate | exact (proj2 H)].
Defined.

(** C3: the shutdown function returned by a successful [setupOTelSDK]
    calls the teardowns in the order in which they were appended to the
    registry: tracer, then meter, then logger, which is not the reverse
    order. *)
Theorem shutdown_runs_in_registration_order
        (sdk : SDK) (ctx ctx1 : Context) (w : World) :
  let r0 := setupOTelSDK sdk ctx w in
  snd (fst r0) = None ->
  let r1 := fst (fst r0) ctx1 (snd r0) in
  let calls := shutdownCalls (events_since (snd r0) (snd r1)) in
  calls = appended (events_since w (snd r0)) /\
  calls = [Tracer; Meter; Logger] /\
  calls <> rev (appended (events_since w (snd r0))).
Proof.
  intros r0 Hnil r1 calls. subst calls r1 r0.
  destruct (setup_success_state sdk ctx w Hnil) as (Hclo & Hh & Hevs).
  rewrite Hclo, Hevs.
  destruct (shutdown_spec sdk (next w) ctx1 (snd (setupOTelSDK sdk ctx w)))
    as (evs & Htr & Hcalls & _).
  rewrite (events_since_app _ _ _ Htr), Hcalls, Hh.
  repeat split; try reflexivity. cbn. discriminate.
Qed.

Lemma shutdown_runs_in_registration_order_witness :
  let r0 := setupOTelSDK sdk_ok Background w0 in
  let r1 := fst (fst r0) Background (snd r0) in
  shutdownCalls (events_since (snd r0) (snd r1)) = [Tracer; Meter; Logger].
Proof.
  intros r0 r1.
  exact (proj1 (proj2 (shutdown_runs_in_registration_order
                         sdk_ok Background Background w0 eq_refl))).
Defined.

(** C4: whatever the registry holds, if two of the teardown calls made by
    one invocation of the shutdown function return non-nil errors (in
    particular the calls of two distinct callbacks), errors.Is finds both
    errors in the single error that the shutdown function returns. *)
Theorem shutdown_joins_both_errors
        (sdk : SDK) (ref : nat) (ctx : Context) (w : World)
        (k1 k2 : Kind) (e1 e2 : error) :
  let r := shutdown sdk ref ctx w in
  let evs := events_since w (snd r) in
  In (EvShutdown k1 ctx (Some e1)) evs ->
  In (EvShutdown k2 ctx (Some e2)) evs ->
  errors_Is (fst r) e1 = true /\ errors_Is (fst r) e2 = true.
Proof.
  intros r evs H1 H2. subst evs r.
  destruct (shutdown_spec sdk ref ctx w)
    as (evs & Htr & _ & _ & Hres & _).
  rewrite (events_since_app _ _ _ Htr) in H1, H2.
  rewrite Hres. split; apply fold_join2_Is_In.
  - exact (shutdownReturns_In _ _ _ _ H1).
  - exact (shutdownReturns_In _ _ _ _ H2).
Qed.

Lemma shutdown_joins_both_errors_witness :
  let r0 := setupOTelSDK sdk_ok Background w0 in
  let r1 := shutdown sdk_ok (next w0) Background (snd r0) in
  errors_Is (fst r1) errTracerDown = true /\
  errors_Is (fst r1) errMeterDown = true.
Proof.
  intros r0 r1.
  apply (shutdown_joins_both_errors
           sdk_ok (next w0) Background (snd r0) Tracer Meter
           errTracerDown errMeterDown).
  - vm_compute. left. reflexivity.
  - vm_compute. right. left. reflexivity.
Defined.

(** ** [run] *)

(** The events of a pass over a registry are teardown calls only. *)
Lemma teardownEvents_calls (sdk : SDK) (ctx : Context) (ks : list Kind) :
  forall h : list Event,
    shutdownCalls (teardownEvents sdk ks ctx h) = ks /\
    shutdownContexts (teardownEvents sdk ks ctx h)
    = repeat ctx (List.length ks) /\
    Forall (fun ev => isShutdown ev = true) (teardownEvents sdk ks ctx h).
Proof.
  induction ks as [| k ks IH]; intros h; cbn.
  - repeat split. constructor.
  - destruct (IH (h ++ [EvShutdown k ctx (providerShutdown sdk k ctx h)]))
      as (Hc & Hx & Hs).
    split; [f_equal; exact Hc |]. split; [f_equal; exact Hx |].
    constructor; [reflexivity | exact Hs].
Qed.

(** A stretch of teardown calls holds no other event. *)
Lemma only_shutdowns (evs : list Event) :
  Forall (fun ev => isShutdown ev = true) evs ->
  setupSteps evs = [] /\ srvShutdowns evs = [] /\ srvErrReceives evs = [] /\
  appended evs = [] /\ propagatorInstalls evs = [] /\ installed evs = [] /\
  constructed evs = [] /\ stops evs = 0 /\ serverStarts evs = 0.
Proof.
  induction 1 as [| ev evs Hev _ IH]; [repeat split |].
  destruct ev; try discriminate Hev. exact IH.
Qed.

(** The trace and the result of the range loop, exactly. *)
Lemma shutdown_range_trace (sdk : SDK) (ctx : Context) (fns : list Callback) :
  forall (acc : goerror) (w : World),
    let tds := teardownEvents sdk (map callbackKind fns) ctx (trace w) in
    trace (snd (shutdown_range sdk fns ctx acc w)) = trace w ++ tds /\
    fst (shutdown_range sdk fns ctx acc w)
    = fold_left join2 (shutdownReturns tds) acc.
Proof.
  induction fns as [| fn rest IH]; intros acc w.
  - cbn. rewrite app_nil_r. split; reflexivity.
  - destruct fn as [k]. cbn [shutdown_range].
    rewrite (bind_run _ _ _ _ _ (call_run sdk k ctx w)).
    match goal with
    | |- context [shutdown_range sdk rest ctx ?a ?w1] =>
        destruct (IH a w1) as (Htr & Hres)
    end.
    cbn [trace] in Htr, Hres. cbn zeta. rewrite Htr, Hres.
    cbn [map callbackKind teardownEvents].
    rewrite <- app_assoc. split; reflexivity.
Qed.

(** The trace and the result of one invocation of [shutdown], exactly. *)
Lemma shutdown_trace (sdk : SDK) (ref : nat) (ctx : Context) (w : World) :
  let tds := teardownEvents sdk (map callbackKind (heap w ref)) ctx (trace w) in
  trace (snd (shutdown sdk ref ctx w)) = trace w ++ tds /\
  fst (shutdown sdk ref ctx w) = fold_left join2 (shutdownReturns tds) None.
Proof.
  intros tds. rewrite shutdown_run. cbn [fst snd writeSlice trace].
  apply shutdown_range_trace.
Qed.

(** What the [select] statement of [run] and the code after it add to the
    trace, and the value then held by the named result [err]; [h] is the
    history when the [select] statement is reached. *)
Lemma run_after_setup (sdk : SDK) (sel : SelectOutcome) (w : World) :
  (forall k, newProviderErr sdk k = None) ->
  let h := trace w ++ EvNotifyContext :: setupOrder ++ [EvGoListenAndServe] in
  let ret := srvShutdown sdk Background (h ++ [EvCtxDone; EvStop]) in
  let chosen := match sel with
                | SrvErrFirst e => [EvRecvSrvErr e]
                | CtxDoneFirst =>
                    [EvCtxDone; EvStop; EvSrvShutdown Background ret]
                end in
  let err := match sel with SrvErrFirst e => e | CtxDoneFirst => ret end in
  let tds := teardownEvents sdk constructionOrder Background (h ++ chosen) in
  trace (snd (run sdk sel w)) = h ++ chosen ++ tds ++ [EvStop] /\
  fst (run sdk sel w)
  = errors_Join [err; fold_left join2 (shutdownReturns tds) None].
Proof.
  intros Hall h ret chosen err tds.
  unfold run. step. rewrite bind_split.
  match goal with
  | |- context [setupOTelSDK sdk ?c ?w1] =>
      pose proof (setup_closure sdk c w1) as Hclo;
      destruct (setup_succeeds sdk c w1 (Hall Tracer) (Hall Meter) (Hall Logger))
        as (Herr & Htr & Hh & _);
      destruct (setupOTelSDK sdk c w1) as [[clo err0] w2]
  end.
  cbn [fst snd trace next] in Hclo, Herr, Htr, Hh. subst clo err0. fields.
  assert (Hh0 : trace w2 ++ [EvGoListenAndServe] = h).
  { rewrite Htr. subst h. rewrite <- !app_assoc. reflexivity. }
  unfold stop. step. rewrite Hh0.
  destruct sel as [e |]; repeat step; rewrite bind_split;
    match goal with
    | |- context [shutdown sdk ?r ?c ?w3] =>
        destruct (shutdown_trace sdk r c w3) as (Htr5 & Hres5);
        destruct (shutdown sdk r c w3) as [r5 w5]
    end;
    cbn [fst snd trace heap] in Htr5, Hres5; rewrite Hh in Htr5, Hres5;
    repeat step; finish;
    subst r5; rewrite Htr5; subst tds err chosen ret;
    rewrite <- ?app_assoc; split; reflexivity.
Qed.

(** [run] when the receive from [srvErr] fires first, after a successful
    setup: nothing calls [srv.Shutdown]; the deferred closure calls the
    telemetry shutdown with a background context and joins its result onto
    the error received. *)
Lemma run_srvErr_first (sdk : SDK) (w : World) (e : goerror) :
  newProviderErr sdk Tracer = None ->
  newProviderErr sdk Meter = None ->
  newProviderErr sdk Logger = None ->
  let r := run sdk (SrvErrFirst e) w in
  let evs := events_since w (snd r) in
  fst r = errors_Join [e; fold_left join2 (shutdownReturns evs) None] /\
  shutdownCalls evs = constructionOrder /\
  srvShutdowns evs = [] /\
  srvErrReceives evs = [e].
Proof.
  intros HT HM HL r evs. subst evs r.
  assert (Hall : forall k, newProviderErr sdk k = None)
    by (intros k; destruct k; assumption).
  destruct (run_after_setup sdk (SrvErrFirst e) w Hall) as (Htr & Hres).
  cbv zeta in Htr, Hres. rewrite <- app_assoc in Htr.
  rewrite (events_since_app _ _ _ Htr), Hres.
  match goal with
  | |- context [teardownEvents sdk ?ks ?c ?h] =>
      destruct (teardownEvents_calls sdk c ks h) as (Hc & _ & Hs);
      destruct (only_shutdowns _ Hs) as (_ & Hsrv & Hrecv & _);
      clear Hs; set (tds := teardownEvents sdk ks c h) in *; clearbody tds
  end.
  cbn. unfold shutdownReturns, shutdownCalls, srvShutdowns, srvErrReceives in *.
  rewrite !flat_map_app. cbn. rewrite !app_nil_r, Hc, Hsrv, Hrecv.
  repeat split; reflexivity.
Qed.


(** C9: when the telemetry setup succeeded and the server-error channel
    resolves first with the startup error [e], [run] returns
    errors.Join of [e] with the error of the telemetry shutdown called by
    the deferred cleanup; errors.Is finds [e] and every teardown error in
    the result, and [srv.Shutdown] is not called on this path. *)
Theorem run_joins_startup_and_teardown_errors
        (sdk : SDK) (w : World) (e : error) :
  (forall k, newProviderErr sdk k = None) ->
  let r := run sdk (SrvErrFirst (Some e)) w in
  let evs := events_since w (snd r) in
  fst r = errors_Join [Some e; fold_left join2 (shutdownReturns evs) None] /\
  errors_Is (fst r) e = true /\
  (forall e', In (Some e') (shutdownReturns evs) ->
              errors_Is (fst r) e' = true) /\
  shutdownCalls evs = constructionOrder /\
  srvShutdowns evs = [].
Proof.
  intros Hall r evs.
  destruct (run_srvErr_first sdk w (Some e)
                             (Hall Tracer) (Hall Meter) (Hall Logger))
    as (Hres & Hcalls & Hsrv & _).
  subst evs r.
  split; [exact Hres |]. split; [| split; [| split; assumption]].
  - rewrite Hres.
    apply errors_Is_Join with (o := Some e); [left; reflexivity |].
    apply error_Is_refl.
  - intros e' Hin. rewrite Hres.
    eapply errors_Is_Join; [right; left; reflexivity |].
    apply fold_join2_Is_In. exact Hin.
Qed.

Lemma run_joins_startup_and_teardown_errors_witness :
  let r := run sdk_ok (SrvErrFirst (Some errListen)) w0 in
  errors_Is (fst r) errListen = true /\
  errors_Is (fst r) errTracerDown = true /\
  errors_Is (fst r) errMeterDown = true.
Proof.
  intros r.
  pose proof (run_joins_startup_and_teardown_errors
                sdk_ok w0 errListen (fun _ => eq_refl)) as H.
  destruct H as (_ & Hlisten & Hdown & _).
  split; [exact Hlisten |]. split; apply Hdown.
  - vm_compute. left. reflexivity.
  - vm_compute. right. left. reflexivity.
Defined.




(** * Further properties of the lifecycle code *)

(** ** Joining errors *)

Lemma join2_nil (a b : goerror) : join2 a b = None <-> a = None /\ b = None.
Proof.
  destruct a, b; unfold join2, errors_Join; cbn; split; intros H;
    try discriminate H; try (destruct H; discriminate);
    repeat split.
Qed.

Lemma fold_join2_nil (rets : list goerror) :
  forall acc : goerror,
    fold_left join2 rets acc = None
    <-> acc = None /\ Forall (fun r => r = None) rets.
Proof.
  induction rets as [| r rets IH]; intros acc; cbn [fold_left].
  - split; [intros H; split; [exact H | constructor] | intros [H _]; exact H].
  - rewrite IH, join2_nil. split.
    + intros [[Ha Hr] Hrest]. split; [exact Ha | constructor; assumption].
    + intros [Ha Hall]. inversion Hall; subst. repeat split; assumption.
Qed.

Lemma handleErr_run (sdk : SDK) (ref : nat) (ctx : Context) (inErr : goerror)
      (w : World) :
  handleErr sdk ref ctx inErr w
  = (errors_Join [inErr; fst (shutdown sdk ref ctx w)],
     snd (shutdown sdk ref ctx w)).
Proof. reflexivity. Qed.

(** ** The closure [shutdown] over any registry *)

(** X1: one invocation of the closure [shutdown] calls every callback held
    by the registry, in slice order, each with the context handed to this
    invocation; it does nothing else that leaves a trace, and the registry is
    nil afterwards. *)
Theorem shutdown_calls_every_registered_teardown
        (sdk : SDK) (ref : nat) (ctx : Context) (w : World) :
  let r := shutdown sdk ref ctx w in
  let evs := events_since w (snd r) in
  shutdownCalls evs = map callbackKind (heap w ref) /\
  shutdownContexts evs = repeat ctx (List.length (heap w ref)) /\
  setupSteps evs = [] /\
  heap (snd r) ref = [].
Proof.
  intros r evs. subst evs r.
  destruct (shutdown_trace sdk ref ctx w) as (Htr & _).
  rewrite (events_since_app _ _ _ Htr).
  destruct (teardownEvents_calls sdk ctx (map callbackKind (heap w ref))
                                 (trace w)) as (Hc & Hx & Hs).
  destruct (only_shutdowns _ Hs) as (Hsteps & _).
  rewrite length_map in Hx.
  destruct (shutdown_spec sdk ref ctx w) as (evs & _ & _ & _ & _ & Hnil & _).
  repeat split; assumption.
Qed.


(** X2: the closure [shutdown] touches nothing but its own registry: the
    propagator and the providers installed as process-wide defaults stay
    installed after their teardown, no cell is allocated, and every other
    registry keeps its content. *)
Theorem shutdown_leaves_defaults_installed
        (sdk : SDK) (ref : nat) (ctx : Context) (w : World) :
  let r := shutdown sdk ref ctx w in
  textMapPropagator (snd r) = textMapPropagator w /\
  (forall k, globalProvider (snd r) k = globalProvider w k) /\
  next (snd r) = next w /\
  (forall ref', ref' <> ref -> heap (snd r) ref' = heap w ref').
Proof.
  intros r. subst r.
  destruct (shutdown_range_spec sdk ctx (heap w ref) None w)
    as (evs & _ & _ & _ & _ & Hp & Hg & Hh & Hn).
  rewrite shutdown_run.
  cbn [snd writeSlice textMapPropagator globalProvider heap next].
  rewrite Hp, Hg, Hh, Hn. repeat split.
  intros ref' Hne. apply Nat.eqb_neq in Hne. rewrite Hne. reflexivity.
Qed.

(** X3: the closure [shutdown] returns nil exactly when every teardown it
    called returned nil. *)
Theorem shutdown_returns_nil_iff_teardowns_do
        (sdk : SDK) (ref : nat) (ctx : Context) (w : World) :
  let r := shutdown sdk ref ctx w in
  fst r = None
  <-> Forall (fun e => e = None) (shutdownReturns (events_since w (snd r))).
Proof.
  intros r. subst r.
  destruct (shutdown_trace sdk ref ctx w) as (Htr & Hres).
  rewrite (events_since_app _ _ _ Htr), Hres, fold_join2_nil.
  split; [intros [_ H]; exact H | intros H; split; [reflexivity | exact H]].
Qed.

(** X4: the closure [handleErr], over any registry: it calls every callback
    of the registry with the context that [setupOTelSDK] received, leaves
    the registry nil, and the error it assigns is never nil: errors.Is finds
    in it the error passed in and every error returned by a teardown. *)
Theorem handleErr_keeps_every_error
        (sdk : SDK) (ref : nat) (ctx : Context) (w : World) (e : error) :
  let r := handleErr sdk ref ctx (Some e) w in
  let evs := events_since w (snd r) in
  fst r <> None /\
  errors_Is (fst r) e = true /\
  (forall e', In (Some e') (shutdownReturns evs) ->
              errors_Is (fst r) e' = true) /\
  shutdownCalls evs = map callbackKind (heap w ref) /\
  shutdownContexts evs = repeat ctx (List.length (heap w ref)) /\
  heap (snd r) ref = [].
Proof.
  intros r evs. subst evs r. rewrite handleErr_run. cbn [fst snd].
  destruct (shutdown_trace sdk ref ctx w) as (Htr & Hres).
  destruct (shutdown_spec sdk ref ctx w) as (evs & _ & _ & _ & _ & Hnil & _).
  destruct (teardownEvents_calls sdk ctx (map callbackKind (heap w ref))
                                 (trace w)) as (Hc & Hx & _).
  rewrite length_map in Hx.
  rewrite (events_since_app _ _ _ Htr), Hres.
  split; [apply errors_Join_nonnil |].
  split; [apply errors_Is_Join with (o := Some e);
          [left; reflexivity | apply error_Is_refl] |].
  split; [| repeat split; assumption].
  intros e' Hin.
  eapply errors_Is_Join; [right; left; reflexivity |].
  apply fold_join2_Is_In. exact Hin.
Qed.

(** ** The world after [setupOTelSDK] *)

Ltac outcome_cases sdk :=
  destruct (newProviderErr sdk Tracer) as [eT |] eqn:HT;
  [| destruct (newProviderErr sdk Meter) as [eM |] eqn:HM;
     [| destruct (newProviderErr sdk Logger) as [eL |] eqn:HL]].

(** Either every constructor succeeds, or one of them is the first to
    fail. *)
Lemma first_failure_cases (sdk : SDK) :
  (forall k, newProviderErr sdk k = None) \/
  (exists k e,
      (forall k', In k' (earlier k) -> newProviderErr sdk k' = None) /\
      newProviderErr sdk k = Some e).
Proof.
  outcome_cases sdk.
  - right. exists Tracer, eT. split; [intros k' [] | exact HT].
  - right. exists Meter, eM. split; [| exact HM].
    intros k' [<- | []]. exact HT.
  - right. exists Logger, eL. split; [| exact HL].
    intros k' [<- | [<- | []]]; assumption.
  - left. intros k; destruct k; assumption.
Qed.

(** The events of a setup whose first failing constructor is that of the
    provider of kind [k], exactly. *)
Lemma setup_failure_events (sdk : SDK) (ctx : Context) (w : World)
      (k : Kind) (e : error) :
  (forall k', In k' (earlier k) -> newProviderErr sdk k' = None) ->
  newProviderErr sdk k = Some e ->
  let r := setupOTelSDK sdk ctx w in
  let steps := firstn (3 * S (List.length (earlier k))) setupOrder in
  let tds := teardownEvents sdk (earlier k) ctx (trace w ++ steps) in
  trace (snd r) = trace w ++ steps ++ tds /\
  snd (fst r) = errors_Join [Some e; fold_left join2 (shutdownReturns tds) None].
Proof.
  intros Hearlier Hk r steps tds. subst tds steps r.
  destruct k; cbn in Hearlier.
  - destruct (setup_fails_Tracer sdk ctx w e Hk) as (Herr & Htr & _).
    rewrite Htr, Herr. split; reflexivity.
  - assert (HT : newProviderErr sdk Tracer = None) by (apply Hearlier; auto).
    destruct (setup_fails_Meter sdk ctx w e HT Hk) as (Herr & Htr & _).
    rewrite Htr, Herr, <- app_assoc. split; reflexivity.
  - assert (HT : newProviderErr sdk Tracer = None) by (apply Hearlier; auto).
    assert (HM : newProviderErr sdk Meter = None) by (apply Hearlier; auto).
    destruct (setup_fails_Logger sdk ctx w e HT HM Hk) as (Herr & Htr & _).
    rewrite Htr, Herr, <- app_assoc. split; reflexivity.
Qed.

(** What [setupOTelSDK] does, whatever the constructors return. *)
Lemma setup_world (sdk : SDK) (ctx : Context) (w : World) :
  let r := setupOTelSDK sdk ctx w in
  let evs := events_since w (snd r) in
  next (snd r) = S (next w) /\
  (forall ref, ref <> next w -> heap (snd r) ref = heap w ref) /\
  (forall k, globalProvider (snd r) k
             = existsb (Kind_eqb k) (installed evs) || globalProvider w k) /\
  installed evs = appended evs /\
  shutdownCalls evs = (if isNil (snd (fst r)) then [] else installed evs) /\
  shutdownContexts evs
  = repeat ctx (List.length (shutdownCalls evs)) /\
  (exists rest, constructionOrder = constructed evs ++ rest) /\
  (forall k, In k (installed evs) -> newProviderErr sdk k = None) /\
  (exists rest,
      evs = EvNewPropagator
            :: EvSetTextMapPropagator
                 (CompositeTextMapPropagator [TraceContext; Baggage])
            :: rest /\
      propagatorInstalls rest = []).
Proof.
  intros r evs. subst evs r. unfold events_since.
  outcome_cases sdk; unfold setupOTelSDK; exec; rewrite skipn_length_app;
    (split; [reflexivity |]);
    (split; [intros ref Hne; apply Nat.eqb_neq in Hne; rewrite ?Hne;
             reflexivity |]);
    (split; [intros k; destruct k; reflexivity |]);
    (split; [reflexivity |]);
    (split; [reflexivity |]);
    (split; [reflexivity |]);
    (split; [eexists; reflexivity |]);
    (split; [| eexists; split; reflexivity]);
    cbn; intros k Hin;
    repeat (destruct Hin as [<- | Hin]; [assumption |]); destruct Hin.
Qed.

(** ** [setupOTelSDK] on every path *)

(** X5: [setupOTelSDK] returns a nil error exactly when the three
    constructors succeed; it has then installed the three providers as
    process-wide defaults, in construction order, and called no teardown. *)
Theorem setup_succeeds_iff_constructors_do
        (sdk : SDK) (ctx : Context) (w : World) :
  let r := setupOTelSDK sdk ctx w in
  let evs := events_since w (snd r) in
  (snd (fst r) = None <-> forall k, newProviderErr sdk k = None) /\
  (snd (fst r) = None ->
   installed evs = constructionOrder /\
   shutdownCalls evs = [] /\
   forall k, globalProvider (snd r) k = true).
Proof.
  intros r evs. subst evs r.
  assert (Hok : (forall k, newProviderErr sdk k = None) ->
                snd (fst (setupOTelSDK sdk ctx w)) = None /\
                installed (events_since w (snd (setupOTelSDK sdk ctx w)))
                = constructionOrder /\
                shutdownCalls (events_since w (snd (setupOTelSDK sdk ctx w)))
                = [] /\
                forall k, globalProvider (snd (setupOTelSDK sdk ctx w)) k = true).
  { intros Hall.
    destruct (setup_succeeds sdk ctx w (Hall Tracer) (Hall Meter) (Hall Logger))
      as (Herr & Htr & _ & _ & Hg).
    rewrite (events_since_app _ _ _ Htr).
    repeat split; assumption || reflexivity. }
  split; [split |].
  - apply setup_nil_inv.
  - intros Hall. apply (Hok Hall).
  - intros Hnil. apply Hok. apply (setup_nil_inv sdk ctx w Hnil).
Qed.

(** X6: when a constructor fails, the providers constructed before it have
    been torn down but are still installed as process-wide defaults; the
    failing provider and those after it are neither installed nor
    constructed (the failing constructor is the last one called). *)
Theorem failed_setup_leaves_earlier_providers_installed
        (sdk : SDK) (ctx : Context) (w : World) (k : Kind) (e : error) :
  (forall k', In k' (earlier k) -> newProviderErr sdk k' = None) ->
  newProviderErr sdk k = Some e ->
  let r := setupOTelSDK sdk ctx w in
  let evs := events_since w (snd r) in
  installed evs = earlier k /\
  shutdownCalls evs = earlier k /\
  constructed evs = earlier k ++ [k] /\
  (forall k', In k' (earlier k) -> globalProvider (snd r) k' = true) /\
  (forall k', ~ In k' (earlier k) ->
              globalProvider (snd r) k' = globalProvider w k').
Proof.
  intros Hearlier Hk r evs.
  destruct (setup_world sdk ctx w) as (_ & _ & Hg & _).
  fold r in Hg. fold evs in Hg.
  assert (Hevs : installed evs = earlier k /\ shutdownCalls evs = earlier k /\
                 constructed evs = earlier k ++ [k]).
  { destruct (setup_failure_events sdk ctx w k e Hearlier Hk) as (Htr & _).
    subst evs r. rewrite (events_since_app _ _ _ Htr).
    destruct k; repeat split; reflexivity. }
  destruct Hevs as (Hi & Hc & Hn).
  split; [exact Hi |]. split; [exact Hc |]. split; [exact Hn |].
  split; intros k' Hin; rewrite Hg, Hi.
  - destruct k, k'; cbn in Hin |- *; try reflexivity; exfalso;
      intuition discriminate.
  - destruct k, k'; cbn in Hin |- *; try reflexivity; exfalso;
      apply Hin; auto.
Qed.

Lemma failed_setup_leaves_earlier_providers_installed_witness :
  let r := setupOTelSDK sdk_meter_fails Background w0 in
  globalProvider (snd r) Tracer = true /\
  globalProvider (snd r) Meter = false /\
  shutdownCalls (events_since w0 (snd r)) = [Tracer].
Proof.
  assert (Hearlier : forall k', In k' (earlier Meter) ->
                                newProviderErr sdk_meter_fails k' = None).
  { intros k' Hin. destruct Hin as [<- | []]. reflexivity. }
  pose proof (failed_setup_leaves_earlier_providers_installed
                sdk_meter_fails Background w0 Meter errMeterNew
                Hearlier eq_refl) as H.
  destruct H as (_ & Hc & _ & Hin & Hout).
  intros r. split; [apply Hin; left; reflexivity |]. split; [| exact Hc].
  apply (Hout Meter). intros [H | []]. discriminate H.
Defined.

(** X7: each call of [setupOTelSDK] declares its own registry: it allocates
    exactly one cell, the registries of other calls keep their content, and
    when it returns its registry holds the teardowns it appended unless a
    failure emptied it. *)
Theorem setup_declares_its_own_registry
        (sdk : SDK) (ctx : Context) (w : World) :
  let r := setupOTelSDK sdk ctx w in
  let evs := events_since w (snd r) in
  next (snd r) = S (next w) /\
  (forall ref, ref <> next w -> heap (snd r) ref = heap w ref) /\
  fst (fst r) = shutdown sdk (next w) /\
  heap (snd r) (next w)
  = (if isNil (snd (fst r)) then map ProviderShutdown (appended evs) else []).
Proof.
  intros r evs. subst evs r.
  destruct (setup_world sdk ctx w) as (Hn & Hh & _).
  split; [exact Hn |]. split; [exact Hh |]. split; [apply setup_closure |].
  destruct (first_failure_cases sdk) as [Hall | (k & e & Hearlier & Hk)].
  - destruct (setup_succeeds sdk ctx w (Hall Tracer) (Hall Meter) (Hall Logger))
      as (Herr & Htr & Hreg & _).
    rewrite (events_since_app _ _ _ Htr), Herr, Hreg. reflexivity.
  - destruct (setup_failure_state sdk ctx w k e Hk) as (Hne & Hreg & _).
    rewrite Hreg.
    destruct (snd (fst (setupOTelSDK sdk ctx w))); [reflexivity | contradiction].
Qed.



(** X9: on every path of [setupOTelSDK], the providers installed as
    defaults are exactly those whose teardown was appended to the
    registry, each was constructed without error, and the teardowns called
    before the function returns are none of them when the error returned is
    nil and all of them otherwise, each with the context that
    [setupOTelSDK] received. *)
Theorem setup_registers_what_it_installs
        (sdk : SDK) (ctx : Context) (w : World) :
  let r := setupOTelSDK sdk ctx w in
  let evs := events_since w (snd r) in
  installed evs = appended evs /\
  (forall k, In k (installed evs) -> newProviderErr sdk k = None) /\
  shutdownCalls evs = (if isNil (snd (fst r)) then [] else installed evs) /\
  shutdownContexts evs = repeat ctx (List.length (shutdownCalls evs)) /\
  (forall k, globalProvider (snd r) k
             = existsb (Kind_eqb k) (installed evs) || globalProvider w k).
Proof.
  intros r evs.
  destruct (setup_world sdk ctx w)
    as (_ & _ & Hg & Hia & Hc & Hx & _ & Hok & _).
  repeat split; assumption.
Qed.

(** X10: on every path of [setupOTelSDK], the propagator is built and
    installed first and never installed again, and the constructors called
    are an initial stretch of the sequence tracer, meter, logger: each is
    called at most once, and none after one that failed. *)
Theorem setup_constructs_in_order_on_every_path
        (sdk : SDK) (ctx : Context) (w : World) :
  let r := setupOTelSDK sdk ctx w in
  let evs := events_since w (snd r) in
  (exists rest,
      evs = EvNewPropagator
            :: EvSetTextMapPropagator
                 (CompositeTextMapPropagator [TraceContext; Baggage])
            :: rest /\
      propagatorInstalls rest = []) /\
  (exists rest, constructionOrder = constructed evs ++ rest) /\
  (forall k, In k (constructed evs) ->
             newProviderErr sdk k <> None ->
             exists pre, constructed evs = pre ++ [k]).
Proof.
  intros r evs.
  destruct (setup_world sdk ctx w) as (_ & _ & _ & _ & _ & _ & Hpre & _ & Hprop).
  split; [exact Hprop |]. split; [exact Hpre |].
  intros k Hin Hfail. subst evs r.
  destruct (first_failure_cases sdk) as [Hall | (k0 & e & Hearlier & Hk)].
  - contradiction (Hfail (Hall k)).
  - destruct (setup_failure_events sdk ctx w k0 e Hearlier Hk) as (Htr & _).
    rewrite (events_since_app _ _ _ Htr) in Hin |- *.
    exists (earlier k0).
    destruct k0; cbn in Hin, Hearlier |- *;
      repeat (destruct Hin as [<- | Hin];
              [try reflexivity; exfalso; apply Hfail; apply Hearlier; auto |]);
      destruct Hin.
Qed.

(** ** [run] on every path *)


(** [run] when [setupOTelSDK] returns a non-nil error: the [select]
    statement is not reached. *)
Lemma run_setup_failed (sdk : SDK) (sel : SelectOutcome) (w : World) :
  let r0 := setupOTelSDK sdk (NotifyContext Background)
                         (snd (emit EvNotifyContext w)) in
  snd (fst r0) <> None ->
  run sdk sel w = (snd (fst r0), snd (stop (snd r0))).
Proof.
  intros r0 Hne. unfold run. rewrite bind_split.
  change (fst (emit EvNotifyContext w)) with tt. rewrite bind_split.
  fold r0. cbv zeta beta. destruct (snd (fst r0)); [| contradiction].
  reflexivity.
Qed.

(** The trace and the result of [run] when the constructor of the provider
    of kind [k] is the first to fail. *)
Lemma run_first_failure (sdk : SDK) (sel : SelectOutcome) (w : World)
      (k : Kind) (e : error) :
  (forall k', In k' (earlier k) -> newProviderErr sdk k' = None) ->
  newProviderErr sdk k = Some e ->
  let steps := firstn (3 * S (List.length (earlier k))) setupOrder in
  let tds := teardownEvents sdk (earlier k) (NotifyContext Background)
                            (trace w ++ EvNotifyContext :: steps) in
  trace (snd (run sdk sel w)) = trace w ++ EvNotifyContext :: steps ++ tds ++ [EvStop] /\
  fst (run sdk sel w)
  = errors_Join [Some e; fold_left join2 (shutdownReturns tds) None].
Proof.
  intros Hearlier Hk steps tds.
  assert (Hw1 : trace (snd (emit EvNotifyContext w))
                = trace w ++ [EvNotifyContext]) by reflexivity.
  destruct (setup_failure_events sdk (NotifyContext Background)
                                 (snd (emit EvNotifyContext w)) k e Hearlier Hk)
    as (Htr & Herr).
  cbv zeta in Htr, Herr. rewrite Hw1 in Htr, Herr.
  rewrite <- !app_assoc in Htr, Herr.
  rewrite run_setup_failed; [| rewrite Herr; apply errors_Join_nonnil].
  unfold stop. rewrite (emit_run EvStop). cbn [fst snd trace].
  rewrite Htr, Herr, <- !app_assoc.
  split; reflexivity.
Qed.

(** The paths of [run]: the first failing constructor, or a successful
    setup followed by either case of the [select] statement.  [Htr] is the
    list of the events of the path and [Hres] the error returned. *)
Tactic Notation "run_paths" constr(sdk) constr(sel) constr(w)
       "as" ident(Hall) ident(Hearlier) ident(Hk) ident(Htr) ident(Hres) :=
  let k0 := fresh "k0" in
  let e0 := fresh "e0" in
  destruct (first_failure_cases sdk) as [Hall | (k0 & e0 & Hearlier & Hk)];
  [ destruct (run_after_setup sdk sel w Hall) as (Htr & Hres);
    cbv zeta in Htr, Hres; destruct sel
  | destruct (run_first_failure sdk sel w k0 e0 Hearlier Hk) as (Htr & Hres);
    cbv zeta in Htr, Hres; destruct k0;
    cbn [constructionOrder earlier before Kind_eqb] in Hearlier ];
  cbn [teardownEvents constructionOrder earlier before Kind_eqb app
       List.length Nat.mul Nat.add firstn setupOrder] in Htr, Hres;
  rewrite <- ?app_assoc in Htr, Hres; cbn [app] in Htr, Hres;
  apply events_since_app in Htr.

(** X11: when a provider constructor fails, [run] returns the error of
    [setupOTelSDK] as it is, without starting the server: nothing is
    received from [srvErr], [srv.Shutdown] is not called, the teardowns of
    the providers constructed earlier have been called once by the setup
    itself (with the signal context) and are not called again, and [stop]
    is called once, last; the outcome does not depend on the [select]
    statement. *)
Theorem run_returns_setup_error_without_serving
        (sdk : SDK) (sel : SelectOutcome) (w : World) (k : Kind) (e : error) :
  (forall k', In k' (earlier k) -> newProviderErr sdk k' = None) ->
  newProviderErr sdk k = Some e ->
  let r := run sdk sel w in
  let evs := events_since w (snd r) in
  fst r = snd (fst (setupOTelSDK sdk (NotifyContext Background)
                                 (snd (emit EvNotifyContext w)))) /\
  errors_Is (fst r) e = true /\
  serverStarts evs = 0 /\
  serverErrors evs = [] /\
  shutdownCalls evs = earlier k /\
  shutdownContexts evs
  = repeat (NotifyContext Background) (List.length (earlier k)) /\
  stops evs = 1 /\
  (forall sel', run sdk sel' w = r).
Proof.
  intros Hearlier Hk r evs. subst evs r.
  assert (Hne : snd (fst (setupOTelSDK sdk (NotifyContext Background)
                                       (snd (emit EvNotifyContext w)))) <> None).
  { destruct (setup_failure_state sdk (NotifyContext Background)
                                  (snd (emit EvNotifyContext w)) k e Hk)
      as (H & _). exact H. }
  destruct (run_first_failure sdk sel w k e Hearlier Hk) as (Htr & Hres).
  cbv zeta in Htr, Hres. apply events_since_app in Htr.
  rewrite Htr.
  split; [rewrite run_setup_failed by exact Hne; reflexivity |].
  split; [rewrite Hres; apply errors_Is_Join with (o := Some e);
          [left; reflexivity | apply error_Is_refl] |].
  split; [destruct k; reflexivity |].
  split; [destruct k; reflexivity |].
  split; [destruct k; reflexivity |].
  split; [destruct k; reflexivity |].
  split; [destruct k; reflexivity |].
  intros sel'. rewrite !run_setup_failed by exact Hne. reflexivity.
Qed.

Lemma run_returns_setup_error_without_serving_witness :
  let r := run sdk_meter_fails CtxDoneFirst w0 in
  errors_Is (fst r) errMeterNew = true /\
  serverStarts (events_since w0 (snd r)) = 0 /\
  shutdownCalls (events_since w0 (snd r)) = [Tracer] /\
  stops (events_since w0 (snd r)) = 1.
Proof.
  assert (Hearlier : forall k', In k' (earlier Meter) ->
                                newProviderErr sdk_meter_fails k' = None).
  { intros k' Hin. destruct Hin as [<- | []]. reflexivity. }
  pose proof (run_returns_setup_error_without_serving
                sdk_meter_fails CtxDoneFirst w0 Meter errMeterNew
                Hearlier eq_refl) as H.
  destruct H as (_ & His & Hstart & _ & Hcalls & _ & Hstops & _).
  intros r. exact (conj His (conj Hstart (conj Hcalls Hstops))).
Defined.

(** The shape of the trace of [run], on every path. *)
Lemma run_shape (sdk : SDK) (sel : SelectOutcome) (w : World) :
  let evs := events_since w (snd (run sdk sel w)) in
  exists pre tds,
    evs = EvNotifyContext :: pre ++ tds ++ [EvStop] /\
    shutdownCalls pre = [] /\
    Forall (fun ev => isShutdown ev = true) tds.
Proof.
  intros evs. subst evs.
  destruct (first_failure_cases sdk) as [Hall | (k & e & Hearlier & Hk)].
  - destruct (run_after_setup sdk sel w Hall) as (Htr & _).
    cbv zeta in Htr. rewrite <- !app_assoc in Htr.
    apply events_since_app in Htr. rewrite Htr.
    match goal with
    | |- context [teardownEvents sdk ?ks ?c ?h] =>
        destruct (teardownEvents_calls sdk c ks h) as (_ & _ & Hs);
        exists (setupOrder ++ [EvGoListenAndServe]
                  ++ match sel with
                     | SrvErrFirst e => [EvRecvSrvErr e]
                     | CtxDoneFirst =>
                         [EvCtxDone; EvStop;
                          EvSrvShutdown Background
                            (srvShutdown sdk Background
                               (trace w ++ EvNotifyContext :: setupOrder
                                  ++ [EvGoListenAndServe]
                                  ++ [EvCtxDone; EvStop]))]
                     end),
               (teardownEvents sdk ks c h)
    end.
    split; [rewrite <- !app_assoc; reflexivity |].
    split; [destruct sel; reflexivity | exact Hs].
  - destruct (run_first_failure sdk sel w k e Hearlier Hk) as (Htr & _).
    cbv zeta in Htr. apply events_since_app in Htr. rewrite Htr.
    match goal with
    | |- context [teardownEvents sdk ?ks ?c ?h] =>
        destruct (teardownEvents_calls sdk c ks h) as (_ & _ & Hs);
        exists (firstn (3 * S (List.length (earlier k))) setupOrder),
               (teardownEvents sdk ks c h)
    end.
    split; [reflexivity |]. split; [destruct k; reflexivity | exact Hs].
Qed.

(** X12: on every path of [run], the telemetry teardown calls are
    consecutive and are the last thing done before the deferred [stop],
    which ends the run; the run starts with signal.NotifyContext. *)
Theorem run_tears_down_last_then_stops
        (sdk : SDK) (sel : SelectOutcome) (w : World) :
  let evs := events_since w (snd (run sdk sel w)) in
  exists pre tds,
    evs = EvNotifyContext :: pre ++ tds ++ [EvStop] /\
    shutdownCalls pre = [] /\
    Forall (fun ev => isShutdown ev = true) tds.
Proof. exact (run_shape sdk sel w). Qed.

(** X13: on every path of [run], the teardown of a provider is called at
    most once, and the teardowns called are an initial stretch of the
    sequence tracer, meter, logger. *)
Theorem run_tears_down_each_provider_at_most_once
        (sdk : SDK) (sel : SelectOutcome) (w : World) :
  let evs := events_since w (snd (run sdk sel w)) in
  (exists rest, constructionOrder = shutdownCalls evs ++ rest) /\
  (forall k, shutdownCount k evs <= 1).
Proof.
  intros evs. subst evs.
  run_paths sdk sel w as Hall Hearlier Hk Htr Hres; rewrite Htr;
    (split; [eexists; reflexivity | intros k; destruct k; cbn; lia]).
Qed.


(** X15: on every path of [run], [stop] is called once by the deferred
    call and once more for each call of [srv.Shutdown]; the [select]
    statement fires exactly one of its cases when the server goroutine was
    started; and the goroutine is started, once, exactly when the three
    constructors succeeded. *)
Theorem run_counts_stop_and_select
        (sdk : SDK) (sel : SelectOutcome) (w : World) :
  let evs := events_since w (snd (run sdk sel w)) in
  stops evs = 1 + List.length (srvShutdowns evs) /\
  List.length (srvShutdowns evs) + List.length (srvErrReceives evs)
  = serverStarts evs /\
  serverStarts evs <= 1 /\
  (serverStarts evs = 1 <-> forall k, newProviderErr sdk k = None).
Proof.
  intros evs. subst evs.
  run_paths sdk sel w as Hall Hearlier Hk Htr Hres; rewrite Htr;
    (split; [reflexivity |]); (split; [reflexivity |]);
    (split; [cbn; lia |]); cbn;
    (split; [intros H; try discriminate H; exact Hall
            | intros H; try reflexivity; rewrite H in Hk; discriminate Hk]).
Qed.

(** The error returned by [run] is nil exactly when nothing failed. *)
Lemma run_result_nil (sdk : SDK) (sel : SelectOutcome) (w : World) :
  let r := run sdk sel w in
  let evs := events_since w (snd r) in
  fst r = None
  <-> (forall k, newProviderErr sdk k = None) /\
      Forall (fun e => e = None) (serverErrors evs ++ shutdownReturns evs).
Proof.
  intros r evs. subst evs r.
  run_paths sdk sel w as Hall Hearlier Hk Htr Hres; rewrite Htr, Hres;
    cbn [serverErrors shutdownReturns flat_map app];
    match goal with
    | |- errors_Join [?a; ?b] = None <-> _ =>
        change (errors_Join [a; b]) with (join2 a b)
    end;
    rewrite join2_nil, fold_join2_nil.
  - split.
    + intros (Ha & _ & Hrets). split; [exact Hall | constructor; assumption].
    + intros (_ & HF). inversion HF; subst. repeat split; assumption.
  - split.
    + intros (Ha & _ & Hrets). split; [exact Hall | constructor; assumption].
    + intros (_ & HF). inversion HF; subst. repeat split; assumption.
  - split; [intros (Ha & _); discriminate Ha
           | intros (Ha & _); rewrite Ha in Hk; discriminate Hk].
  - split; [intros (Ha & _); discriminate Ha
           | intros (Ha & _); rewrite Ha in Hk; discriminate Hk].
  - split; [intros (Ha & _); discriminate Ha
           | intros (Ha & _); rewrite Ha in Hk; discriminate Hk].
Qed.


(** X16: [run] returns nil exactly when the three constructors succeeded,
    the error received from [srvErr] or returned by [srv.Shutdown] is nil,
    and every telemetry teardown returned nil. *)
Theorem run_returns_nil_iff_nothing_failed
        (sdk : SDK) (sel : SelectOutcome) (w : World) :
  let r := run sdk sel w in
  let evs := events_since w (snd r) in
  fst r = None
  <-> (forall k, newProviderErr sdk k = None) /\
      Forall (fun e => e = None) (serverErrors evs ++ shutdownReturns evs).
Proof. exact (run_result_nil sdk sel w). Qed.


(** ** [main] *)



(** ** Wrapped errors *)

Lemma werror_eqb_refl (e : werror) : werror_eqb e e = true.
Proof.
  induction e as [msg | msg err IH]; cbn.
  - apply String.eqb_refl.
  - rewrite String.eqb_refl. exact IH.
Qed.

Lemma werror_Is_refl (e : werror) : werror_Is e e = true.
Proof. destruct e; cbn [werror_Is]; rewrite werror_eqb_refl; reflexivity. Qed.

(** The error built by fmt.Errorf with %w prints the prefix followed by
    the text of the cause, unwraps to the cause, and errors.Is finds the
    cause in it. *)
Lemma fmt_Errorf_wraps (prefix : string) (cause : werror) :
  Error (fmt_Errorf prefix cause) = String.append prefix (Error cause) /\
  Unwrap (fmt_Errorf prefix cause) = Some cause /\
  werror_Is (fmt_Errorf prefix cause) cause = true.
Proof.
  repeat split. unfold fmt_Errorf. cbn [werror_Is].
  rewrite werror_Is_refl. apply orb_true_r.
Qed.

(** ** [initConn] and [initTracerProvider] of src/main.go *)

(** X19: [initConn] returns either a connection to localhost:4317 and a nil
    error, or a nil connection and an error that wraps the error of
    grpc.NewClient: its text is the cause's text behind a fixed prefix,
    errors.Unwrap gives the cause and errors.Is finds it. *)
Theorem initConn_returns_connection_or_wrapped_error (env : Otlp.Env) :
  let r := Otlp.initConn env in
  (fst r = None <-> snd r <> None) /\
  (forall conn,
      fst r = Some conn ->
      Otlp.grpc_NewClient env "localhost:4317" = None /\
      Otlp.target conn = "localhost:4317"%string) /\
  (forall err,
      snd r = Some err ->
      exists cause,
        Otlp.grpc_NewClient env "localhost:4317" = Some cause /\
        Error err
        = String.append "failed to create gRPC connection to collector: "
                        (Error cause) /\
        Unwrap err = Some cause /\
        werror_Is err cause = true).
Proof.
  intros r. subst r. unfold Otlp.initConn.
  destruct (Otlp.grpc_NewClient env "localhost:4317") as [cause |];
    cbn [fst snd].
  - split; [split; [discriminate | reflexivity] |].
    split; [discriminate |].
    intros err [= <-]. exists cause. split; [reflexivity |].
    apply fmt_Errorf_wraps.
  - split; [split; [discriminate | intros H; contradiction H; reflexivity] |].
    split; [| discriminate].
    intros conn [= <-]. split; reflexivity.
Qed.

(** X20: [initTracerProvider] of src/main.go.  When the exporter cannot be
    created it returns a nil function and an error wrapping the exporter's
    error, and installs nothing: the process-wide provider and propagator
    are what they were.  Otherwise it installs the tracer provider and then
    the trace-context propagator (alone, without baggage) as process-wide
    defaults, and returns the provider's Shutdown with a nil error.
    Exactly one of the two results is nil, and no registry is touched. *)
Theorem initTracerProvider_installs_only_on_success
        (env : Otlp.Env) (ctx : Context) (conn : Otlp.ClientConn) (w : World) :
  let r := Otlp.initTracerProvider env ctx conn w in
  let evs := events_since w (snd r) in
  (fst (fst r) = None <-> snd (fst r) <> None) /\
  heap (snd r) = heap w /\
  (forall err,
      snd (fst r) = Some err ->
      evs = [EvNew Tracer] /\
      globalProvider (snd r) = globalProvider w /\
      textMapPropagator (snd r) = textMapPropagator w /\
      exists cause,
        Otlp.otlptracegrpc_New env ctx conn = Some cause /\
        Error err
        = String.append "failed to create trace exporter: " (Error cause) /\
        werror_Is err cause = true) /\
  (snd (fst r) = None ->
   fst (fst r) = Some (ProviderShutdown Tracer) /\
   evs = [EvNew Tracer; EvSetProvider Tracer;
          EvSetTextMapPropagator TraceContext] /\
   globalProvider (snd r) Tracer = true /\
   textMapPropagator (snd r) = Some TraceContext).
Proof.
  intros r evs. subst evs r. unfold Otlp.initTracerProvider, events_since.
  step.
  destruct (Otlp.otlptracegrpc_New env ctx conn) as [cause |].
  - finish. rewrite skipn_length_app.
    split; [split; [discriminate | reflexivity] |].
    split; [reflexivity |]. split; [| discriminate].
    intros err [= <-]. repeat split. exists cause.
    split; [reflexivity |]. split; apply fmt_Errorf_wraps.
  - exec. rewrite skipn_length_app.
    split; [split; [discriminate | intros H; contradiction H; reflexivity] |].
    split; [reflexivity |]. split; [discriminate |].
    intros _. repeat split.
Qed.

(** ** The collector example (src/unnamed/part_001) *)

(** The [for] loop runs its body for i = 0, ..., 9, whatever fuel is left
    beyond the iterations to come. *)
Lemma collector_loop_unrolls (ctx : Collector.Ctx) :
  forall fuel i,
    10 - i <= fuel ->
    Collector.loop fuel ctx i
    = flat_map (Collector.iteration ctx) (seq i (10 - i)).
Proof.
  induction fuel as [| fuel IH]; intros i Hfuel.
  - replace (10 - i) with 0 by lia. reflexivity.
  - cbn [Collector.loop]. destruct (Nat.ltb i 10) eqn:Hlt.
    + apply Nat.ltb_lt in Hlt. rewrite IH by lia.
      replace (10 - i) with (S (10 - S i)) by lia. reflexivity.
    + apply Nat.ltb_ge in Hlt. replace (10 - i) with 0 by lia. reflexivity.
Qed.

(** X21: the loop of [main] performs exactly ten iterations: the model's
    bound on the number of iterations is never what ends it, the counter is
    incremented by one ten times, and each iteration ends the span it
    started before the next one starts. *)
Theorem collector_loop_runs_ten_iterations
        (ctx : Collector.Ctx) (extra : nat) :
  let evs := Collector.loop (10 + extra) ctx 0 in
  evs = flat_map (Collector.iteration ctx) (seq 0 10) /\
  Collector.increments evs = repeat 1 10 /\
  Collector.spansStarted evs
  = map (fun i => String.append "Sample-" (Collector.decimal i)) (seq 0 10) /\
  Collector.spansEnded evs = Collector.spansStarted evs /\
  Collector.shutdownCalls evs = [].
Proof.
  intros evs. subst evs.
  rewrite (collector_loop_unrolls ctx (10 + extra) 0) by lia.
  repeat split.
Qed.

Lemma ends_cons {A : Type} (a x : A) (l : list A) :
  (exists pre, l = pre ++ [x]) -> exists pre, a :: l = pre ++ [x].
Proof. intros [pre ->]. exists (a :: pre). reflexivity. Qed.

Lemma ends_app {A : Type} (x : A) (l1 l2 : list A) :
  (exists pre, l2 = pre ++ [x]) -> exists pre, l1 ++ l2 = pre ++ [x].
Proof. intros [pre ->]. exists (l1 ++ pre). apply app_assoc. Qed.

(** Finding an event in a trace, and the last event of a trace. *)
Ltac find_in :=
  lazymatch goal with
  | |- In _ (_ :: _) => first [ left; reflexivity | apply in_cons; find_in ]
  | |- In _ (_ ++ _) =>
      apply in_or_app; first [ left; find_in | right; find_in ]
  end.

Ltac find_last :=
  lazymatch goal with
  | |- exists pre, [?x] = pre ++ [?x] => exists []; reflexivity
  | |- exists pre, _ :: _ = pre ++ [_] => apply ends_cons; find_last
  | |- exists pre, _ ++ _ = pre ++ [_] => apply ends_app; find_last
  end.

(** The paths of [main]: which library call fails, and what the two
    teardowns return when they are called. *)
Ltac collector_paths env :=
  unfold Collector.main, Collector.initLoggerProvider,
    Collector.initTracerProvider, Collector.initMeterProvider,
    Collector.logInitError;
  destruct (Collector.resource_New env) as [eR |] eqn:HR;
  [| destruct (Collector.exporter_New env Logger) as [eL |] eqn:HL;
     [| destruct (Collector.exporter_New env Tracer) as [eT |] eqn:HT;
        destruct (Collector.exporter_New env Meter) as [eM |] eqn:HM;
        destruct (Collector.Int64Counter env) as [eC |] eqn:HC ]];
  cbn [fst snd Collector.runAllDeferred Collector.runDeferred app];
  repeat match goal with
         | |- context [Collector.provider_Shutdown env ?k ?c] =>
             destruct (Collector.provider_Shutdown env k c)
         end;
  cbn [fst snd app].

(** X22: [main] returns normally exactly when resource.New, the three
    exporter constructors and meter.Int64Counter all succeed; what the
    teardowns return at exit does not matter (their errors are only
    logged). *)
Theorem collector_main_returns_iff_every_init_succeeds (env : Collector.Env) :
  fst (Collector.main env) = Collector.Returned
  <-> Collector.resource_New env = None /\
      (forall k, Collector.exporter_New env k = None) /\
      Collector.Int64Counter env = None.
Proof.
  collector_paths env;
    (split;
     [ intros H; try discriminate H;
       repeat split; try assumption; intros k; destruct k; assumption
     | intros (H1 & H2 & H3);
       try reflexivity;
       try discriminate H1; try discriminate H3;
       try (rewrite H2 in HL; discriminate HL);
       try (rewrite H2 in HT; discriminate HT);
       try (rewrite H2 in HM; discriminate HM) ]).
Qed.

(** X23: when the exporter of the tracer or of the meter provider cannot be
    created (everything else succeeding), [main] logs the failure and goes
    on with a nil shutdown function: the loop runs to its end, and at exit
    the deferred closure calls the nil function, so the process ends in a
    nil-dereference panic instead of returning; the Shutdown of that
    provider is never called, and [cancel] still runs last. *)
Theorem collector_main_panics_at_exit_after_failed_init
        (env : Collector.Env) (k : Kind) (cause : werror) :
  Collector.resource_New env = None ->
  Collector.exporter_New env Logger = None ->
  Collector.Int64Counter env = None ->
  k <> Logger ->
  Collector.exporter_New env k = Some cause ->
  let r := Collector.main env in
  (exists values,
      fst r = Collector.Panicked values /\
      In Collector.nilDereference values) /\
  In (Collector.EvLoggerInfo "Done!") (snd r) /\
  Collector.increments (snd r) = repeat 1 10 /\
  ~ In k (Collector.shutdownCalls (snd r)) /\
  (exists pre, snd r = pre ++ [Collector.EvCancel]).
Proof.
  intros HR0 HL0 HC0 Hk Hcause r. subst r.
  destruct k; [| | contradiction Hk; reflexivity];
    collector_paths env; try congruence;
    (split; [eexists; split; [reflexivity | cbn; auto] |]);
    (split; [find_in |]);
    (split; [reflexivity |]);
    (split; [intros Hin; vm_compute in Hin; intuition discriminate
            | find_last ]).
Qed.

Lemma collector_main_panics_at_exit_after_failed_init_witness :
  (exists values,
      fst (Collector.main collector_tracer_fails) = Collector.Panicked values /\
      In Collector.nilDereference values) /\
  ~ In Tracer (Collector.shutdownCalls (snd (Collector.main collector_tracer_fails))).
Proof.
  pose proof (collector_main_panics_at_exit_after_failed_init
                collector_tracer_fails Tracer (libError "connection refused")
                eq_refl eq_refl eq_refl) as H.
  assert (Hk : Tracer <> Logger) by discriminate.
  destruct (H Hk eq_refl) as (Hpanic & _ & _ & Hnever & _).
  exact (conj Hpanic Hnever).
Defined.

(** X24: when every initialisation succeeds, [main] returns, and its
    deferred calls run in the reverse of the order in which they were
    deferred: the root span is ended after the ten spans of the loop, then
    the meter provider is shut down, then the tracer provider (the reverse
    of the order in which they were installed), then [cancel] runs.  Both
    teardowns receive the context returned by tracer.Start for the root
    span, the value of [ctx] at exit, not the signal context that [ctx] held
    when the closures were deferred. *)
Theorem collector_main_shuts_down_in_reverse_order (env : Collector.Env) :
  Collector.resource_New env = None ->
  (forall k, Collector.exporter_New env k = None) ->
  Collector.Int64Counter env = None ->
  let r := Collector.main env in
  let ctx := Collector.WithSpan (Collector.NotifyContext Collector.Background)
                                "CollectorExporter-Example" in
  fst r = Collector.Returned /\
  Collector.installed (snd r) = [Tracer; Meter] /\
  Collector.shutdownCalls (snd r) = [Meter; Tracer] /\
  Collector.shutdownContexts (snd r) = [ctx; ctx] /\
  Collector.spansEnded (snd r)
  = map (fun i => String.append "Sample-" (Collector.decimal i)) (seq 0 10)
        ++ ["CollectorExporter-Example"%string] /\
  (exists pre post,
      snd r = pre ++ Collector.EvSpanEnd "CollectorExporter-Example" :: post /\
      Collector.shutdownCalls pre = [] /\
      Collector.shutdownCalls post = [Meter; Tracer] /\
      exists post', post = post' ++ [Collector.EvCancel]).
Proof.
  intros HR0 Hall HC0 r ctx. subst ctx r.
  pose proof (Hall Logger) as HL0. pose proof (Hall Tracer) as HT0.
  pose proof (Hall Meter) as HM0.
  collector_paths env; try congruence;
    (split; [reflexivity |]); (split; [reflexivity |]);
    (split; [reflexivity |]); (split; [reflexivity |]);
    (split; [reflexivity |]);
    match goal with
    | |- exists pre post, ?t = _ /\ _ =>
        exists (firstn 62 t), (skipn 63 t)
    end;
    (split; [reflexivity |]); (split; [reflexivity |]);
    (split; [reflexivity |]);
    match goal with
    | |- exists post', ?l = _ =>
        let l' := eval vm_compute in l in change l with l'
    end;
    find_last.
Qed.

Lemma collector_main_shuts_down_in_reverse_order_witness :
  fst (Collector.main collector_ok) = Collector.Returned /\
  Collector.shutdownCalls (snd (Collector.main collector_ok)) = [Meter; Tracer].
Proof.
  pose proof (collector_main_shuts_down_in_reverse_order
                collector_ok eq_refl (fun _ => eq_refl) eq_refl) as H.
  exact (conj (proj1 H) (proj1 (proj2 (proj2 H)))).
Defined.

(** X25: how [main] can end, on every path.  log.Fatal ends the process
    with status 1 without running any deferred call: no provider is shut
    down, even one that was installed, and [cancel] is not called.  A panic
    is either the one raised when the logger cannot be set up, before any
    provider is installed, or a nil-function call at exit, after a provider
    failed to initialise.  On every path that is not an os.Exit, [cancel]
    runs exactly once; only installed providers are ever shut down, and the
    logger provider is neither installed nor shut down. *)
Theorem collector_main_ends_in_one_of_three_ways (env : Collector.Env) :
  let r := Collector.main env in
  let cancels := List.length (filter Collector.isCancel (snd r)) in
  match fst r with
  | Collector.OsExit code =>
      code = 1 /\ cancels = 0 /\ Collector.shutdownCalls (snd r) = [] /\
      (Collector.resource_New env <> None \/ Collector.Int64Counter env <> None)
  | Collector.Panicked values =>
      cancels = 1 /\
      ((Collector.exporter_New env Logger <> None /\
        Collector.installed (snd r) = [] /\ List.length values = 1) \/
       (exists k, k <> Logger /\ Collector.exporter_New env k <> None /\
                  In Collector.nilDereference values))
  | Collector.Returned =>
      cancels = 1 /\ Collector.shutdownCalls (snd r) = [Meter; Tracer]
  end /\
  (forall k, In k (Collector.shutdownCalls (snd r)) ->
             In k (Collector.installed (snd r))) /\
  ~ In Logger (Collector.installed (snd r)).
Proof.
  intros r cancels. subst cancels r.
  collector_paths env;
    (split;
     [ first
         [ split; [reflexivity |]; split; [reflexivity |];
           split; [reflexivity |];
           first [left; discriminate | right; discriminate]
         | split; reflexivity
         | split; [reflexivity |]; left;
           split; [discriminate | split; reflexivity]
         | split; [reflexivity |]; right; exists Tracer;
           split; [discriminate |]; split; [congruence | find_in]
         | split; [reflexivity |]; right; exists Meter;
           split; [discriminate |]; split; [congruence | find_in] ]
     | split;
       [ intros k Hin; vm_compute in Hin |- *; intuition
       | intros Hin; vm_compute in Hin; intuition discriminate ] ]).
Qed.

(** X26: the three init functions of the collector example return either
    a result and a nil error, or a nil result and an error.  The tracer and
    the meter function wrap the exporter's error behind a prefix and
    install their provider only on success (the tracer function then also
    installs the trace-context propagator); the logger function returns
    the exporter's error as it is and installs nothing on either path. *)
Theorem collector_init_functions_return_result_or_error
        (env : Collector.Env) (ctx : Collector.Ctx) :
  let rt := Collector.initTracerProvider env ctx in
  let rm := Collector.initMeterProvider env ctx in
  let rl := Collector.initLoggerProvider env ctx in
  (fst (fst rt) = None <-> snd (fst rt) <> None) /\
  (fst (fst rm) = None <-> snd (fst rm) <> None) /\
  (fst (fst rl) = None <-> snd (fst rl) <> None) /\
  (forall err,
      snd (fst rt) = Some err ->
      Collector.installed (snd rt) = [] /\
      exists cause,
        Collector.exporter_New env Tracer = Some cause /\
        Unwrap err = Some cause /\
        Error err
        = String.append "failed to create trace exporter: " (Error cause)) /\
  (forall err,
      snd (fst rm) = Some err ->
      Collector.installed (snd rm) = [] /\
      exists cause,
        Collector.exporter_New env Meter = Some cause /\
        Unwrap err = Some cause /\
        Error err
        = String.append "failed to create metrics exporter: " (Error cause)) /\
  (forall err,
      snd (fst rl) = Some err -> Collector.exporter_New env Logger = Some err) /\
  (snd (fst rt) = None ->
   Collector.installed (snd rt) = [Tracer] /\
   In (Collector.EvSetTextMapPropagator TraceContext) (snd rt)) /\
  (snd (fst rm) = None -> Collector.installed (snd rm) = [Meter]) /\
  Collector.installed (snd rl) = [].
Proof.
  intros rt rm rl. subst rl rm rt.
  unfold Collector.initTracerProvider, Collector.initMeterProvider,
    Collector.initLoggerProvider.
  destruct (Collector.exporter_New env Tracer) as [eT |];
    destruct (Collector.exporter_New env Meter) as [eM |];
    destruct (Collector.exporter_New env Logger) as [eL |];
    cbn [fst snd];
    repeat match goal with
           | |- _ /\ _ => split
           | |- _ <-> _ => split
           end;
    try discriminate; try reflexivity;
    try (intros H; contradiction H; reflexivity);
    try (intros err [= <-]; try reflexivity;
         split; [reflexivity |]; eexists; repeat split);
    try (intros _; split; [reflexivity | find_in]);
    intros err H; exact H.
Qed.
